(** * The Linen/NNX bridge of flax ([flax/nnx/nnx/bridge/wrappers.py])

    A shallow embedding of the bridge layer: the functional handle
    ([Functional], [functional]), the initialization-phase toggle
    ([_set_initializing], [lazy_init]) and the two adapters ([ToNNX],
    [ToLinen]).  Python objects live in an explicit store, exceptions are
    an [Outcome], dictionaries are finite maps. *)

From Stdlib Require Import ZArith.
From stdpp Require Import gmap strings list fin_maps sets.

Set Warnings "-register-all".
Set Default Proof Using "Type".

Local Open Scope string_scope.
Local Open Scope nat_scope.
Local Open Scope list_scope.

(** ** Python values and outcomes *)

Module Py.

(** Object identity ([id(obj)]). *)
Definition oid := nat.

(** A variable category is a Python class ([nnx.Param], ...), identified
    here by its class name. *)
Definition VariableType := string.

(** A raw pseudo-random key. *)
Definition Key := Z.

(** [nnx.RngStream]: a key and the number of draws made so far. *)
Record RngStream := mkStream { key : Key; count : nat }.

(** The static half of a split module; opaque to the bridge. *)
Record GraphDef := mkGraphDef { graphdef_id : nat }.

Inductive Val :=
| VNone
| VBool (b : bool)
| VInt (z : Z)
| VStr (s : string)
| VTuple (vs : list Val)
| VDict (m : gmap string Val)
| VVariable (t : VariableType) (v : Val)      (* nnx.Variable subclass instance *)
| VVariableState (t : VariableType) (v : Val) (* nnx.VariableState *)
| VGraphDef (g : GraphDef)
| VRngs (streams : gmap string RngStream)     (* nnx.Rngs *)
| VRef (o : oid)                              (* a graph object, by identity *)
| VMethod (self : oid) (name : string).       (* bound method, __self__ = self *)

(** A raised exception, by class name. *)
Definition Exception := string.

Inductive Outcome (A : Type) :=
| Ok (a : A)
| Raise (e : Exception).
Arguments Ok {A} a.
Arguments Raise {A} e.

#[export] Instance Outcome_ret : MRet Outcome := λ A a, Ok a.
#[export] Instance Outcome_bind : MBind Outcome := λ A B f m,
  match m with Ok a => f a | Raise e => Raise e end.
#[export] Instance Outcome_fmap : FMap Outcome := λ A B f m,
  match m with Ok a => Ok (f a) | Raise e => Raise e end.

(** [nnx.State]: the dynamic half of a split module. *)
Record State := mkState { raw_mapping : gmap string Val }.

(** Call arguments: positional and keyword. *)
Record Args := mkArgs { pos : list Val; kw : gmap string Val }.

(** Python truthiness, for the values the bridge tests. *)
Definition truthy (v : Val) : bool :=
  match v with
  | VNone => false
  | VBool b => b
  | VInt z => negb (z =? 0)%Z
  | VStr s => negb (String.eqb s "")
  | VTuple vs => negb (bool_decide (vs = []))
  | VDict m => negb (bool_decide (m = ∅))
  | VRngs m => negb (bool_decide (m = ∅))
  | _ => true
  end.

End Py.
Export Py.

(** ** The object graph *)

Module Graph.

(** Python classes as far as the bridge distinguishes them:
    [nnx.Module] ⊂ [nnx.Object], other graph nodes (dicts, lists,
    variables), and leaves. *)
Inductive Kind := KModule | KObject | KNode | KLeaf.

(** A heap cell.  [initializing] is [_object__state._initializing]; it is
    carried by [Object] instances only.  [node_dict] are the ownership
    edges, in attribute order. *)
Record Node := mkNode {
  kind : Kind;
  initializing : bool;
  node_dict : list (string * oid)
}.

Definition Heap := gmap oid Node.

Definition is_Object (n : Node) : bool :=
  match kind n with KModule | KObject => true | _ => false end.

Definition is_Module (n : Node) : bool :=
  match kind n with KModule => true | _ => false end.

Definition children (h : gmap oid Node) (x : oid) : list oid :=
  match h !! x with
  | Some n => (node_dict n).*2
  | None => []
  end.

(** Ownership reachability. *)
Inductive reachable (h : gmap oid Node) (root : oid) : oid → Prop :=
| reach_root : reachable h root root
| reach_step x y :
    reachable h root x → y ∈ children h x → reachable h root y.

(** Modelled from the spec: [graph.iter_graph] is not part of the
    excerpt.  Section 4.5 and the design notes describe it as a
    traversal of the ownership graph with a visited set keyed by object
    identity, each object being visited once however many owners refer
    to it.  [visit] is that depth-first walk; [visited] is kept in
    reverse visiting order. *)
Fixpoint visit (fuel : nat) (h : gmap oid Node) (x : oid)
    (visited : list oid) : list oid :=
  match fuel with
  | 0 => visited
  | S f =>
      if bool_decide (x ∈ visited) then visited
      else foldl (λ vis c, visit f h c vis) (x :: visited) (children h x)
  end.

Definition iter_graph (h : gmap oid Node) (root : oid) : list oid :=
  reverse (visit (S (size h)) h root []).

(** [value._object__state._initializing = initializing], guarded by
    [isinstance(value, Object)]. *)
Definition set_node (b : bool) (n : Node) : Node :=
  if is_Object n then mkNode (kind n) b (node_dict n) else n.

Definition set_flag (b : bool) (h : gmap oid Node) (x : oid) : gmap oid Node :=
  match h !! x with
  | Some n => <[x := set_node b n]> h
  | None => h
  end.

(** [_set_initializing(module, initializing)].  The write does not touch
    [node_dict], so running the generator against the heap as it was on
    entry is the same walk. *)
Definition _set_initializing (h : gmap oid Node) (module : oid)
    (b : bool) : gmap oid Node :=
  foldl (set_flag b) h (iter_graph h module).

(** The flag an observer reads when following a reference to [o]. *)
Definition flag_of (h : gmap oid Node) (o : oid) : option bool :=
  n ← h !! o; if is_Object n then Some (initializing n) else None.

(** Nodes of the heap not yet on the visited list: the budget of the
    walk. *)
Definition unvisited (h : gmap oid Node) (vis : list oid) : nat :=
  size (dom h ∖ (list_to_set vis : gset oid)).

(** What one call of [visit] guarantees about the visited list. *)
Definition visit_post (h : gmap oid Node) (vis : list oid)
    (targets : list oid) (res : list oid) : Prop :=
  (∀ y, y ∈ vis → y ∈ res) ∧
  (∀ c, c ∈ targets → c ∈ res) ∧
  (NoDup vis → NoDup res) ∧
  (∀ y, y ∈ res → y ∉ vis → ∀ c, c ∈ children h y → c ∈ res).

End Graph.
Export Graph.

(** ** [lazy_init] *)

Section lazy_init.
(** [callable(fn)] and the meaning of the call [fn] on its arguments: an
    arbitrary store transformer that returns or raises. *)
Variable callable : Val → bool.
Variable invoke : Val → Args → gmap oid Node → gmap oid Node * Outcome Val.

Definition isinstance_Module (h : gmap oid Node) (v : Val) : bool :=
  match v with
  | VRef o => match h !! o with Some n => is_Module n | None => false end
  | _ => false
  end.

(** The two [assert]s and the choice of [module]. *)
Definition lazy_init_module (h : gmap oid Node) (fn : Val) : Outcome oid :=
  if isinstance_Module h fn then
    match fn with
    | VRef o => if callable fn then Ok o else Raise "AssertionError"
    | _ => Raise "AssertionError"
    end
  else
    match fn with
    | VMethod self _ =>
        if isinstance_Module h (VRef self) then Ok self
        else Raise "AssertionError"
    | _ => Raise "AssertionError"
    end.

Definition lazy_init (fn : Val) (args : Args) (h : gmap oid Node)
    : gmap oid Node * Outcome Val :=
  match lazy_init_module h fn with
  | Raise e => (h, Raise e)
  | Ok module =>
      let h1 := _set_initializing h module true in
      (* try: _ = fn(args, kwargs) *)
      let '(h2, r) := invoke fn args h1 in
      (* finally: *)
      let h3 := _set_initializing h2 module false in
      (* return fn *)
      (h3, r ≫= λ _, Ok fn)
  end.

End lazy_init.

(** ** Trees of values ([jax.tree]) *)

Module Tree.

(** [jax.tree.map(f, tree)]: tuples, dicts, [None] and [VariableState]
    are containers, everything else is a leaf. *)
Fixpoint tree_map (f : Val → Val) (v : Val) : Val :=
  match v with
  | VNone => VNone
  | VTuple vs => VTuple (tree_map f <$> vs)
  | VDict m => VDict (tree_map f <$> m)
  | VVariableState t x => VVariableState t (tree_map f x)
  | leaf => f leaf
  end.

(** [jax.tree.map(f, tree)] for an [f] that can raise. *)
Fixpoint tree_mapM (f : Val → Outcome Val) (v : Val) : Outcome Val :=
  match v with
  | VNone => Ok VNone
  | VTuple vs =>
      VTuple <$> foldr (λ x acc, y ← tree_mapM f x; ys ← acc; Ok (y :: ys))
                       (Ok []) vs
  | VDict m =>
      VDict <$> map_fold (λ k x acc, y ← tree_mapM f x; ys ← acc;
                                      Ok (<[k := y]> ys)) (Ok ∅) m
  | VVariableState t x => VVariableState t <$> tree_mapM f x
  | leaf => f leaf
  end.

(** [lambda v: v.value]: only a [Variable] has a [value]. *)
Definition value_of (v : Val) : Outcome Val :=
  match v with
  | VVariable _ x => Ok x
  | _ => Raise "AttributeError"
  end.

(** [jax.tree.leaves(jax.tree.map(lambda x: x.type, state, is_leaf=...))]
    with [VariableState] as the leaves: the category of every variable of
    a state. *)
Fixpoint state_types (v : Val) : Outcome (list VariableType) :=
  match v with
  | VNone => Ok []
  | VTuple vs =>
      foldr (λ x acc, l1 ← state_types x; l2 ← acc; Ok (l1 ++ l2)) (Ok []) vs
  | VDict m =>
      map_fold (λ _ x acc, l1 ← state_types x; l2 ← acc; Ok (l1 ++ l2))
               (Ok []) m
  | VVariableState t _ => Ok [t]
  | _ => Raise "AttributeError"
  end.

End Tree.
Export Tree.

(** ** The functional handle *)

Module FunctionalWrapper.
Section defs.
Context {NNXModule : Type}.

(** From [flax.nnx], outside the excerpt: [nnx.split] without filters,
    [nnx.merge], and calling a module. *)
Variable nnx_split : NNXModule → GraphDef * State.
Variable nnx_merge : GraphDef → list State → Outcome NNXModule.
Variable module_call : NNXModule → Args → NNXModule * Outcome Val.

Record Functional := mkFunctional {
  module_type : list Val → gmap string Val → Outcome NNXModule;
  graphdef : option GraphDef;
  args : list Val;
  kwargs : gmap string Val
}.

(** [functional(cls)(args, kwargs)]. *)
Definition functional
    (cls : list Val → gmap string Val → Outcome NNXModule)
    (args : list Val) (kwargs : gmap string Val) : Functional :=
  mkFunctional cls None args kwargs.

(** [Functional.init(rngs=None)].  Passing the keyword [rngs] twice is a
    [TypeError] of the call itself. *)
Definition init (self : Functional)
    (rngs : option (gmap string RngStream)) : Functional * Outcome State :=
  let kwargs' : gmap string Val :=
    match rngs with
    | Some r => {[ "rngs" := VRngs r ]}
    | None => ∅
    end in
  match kwargs self !! "rngs", rngs with
  | Some _, Some _ => (self, Raise "TypeError")
  | _, _ =>
      match module_type self (args self) (kwargs self ∪ kwargs') with
      | Raise e => (self, Raise e)
      | Ok module =>
          let '(graphdef, state) := nnx_split module in
          (mkFunctional (module_type self) (Some graphdef)
                        (args self) (kwargs self), Ok state)
      end
  end.

(** Modelled from the spec: [GraphDef.apply] is not part of the excerpt.
    Section 4.4 says that it merges the graph definition with the given
    states and invokes the reconstructed module; it is given no call
    arguments. *)
Definition GraphDef_apply (g : GraphDef) (states : list State) : Outcome Val :=
  module ← nnx_merge g states; (module_call module (mkArgs [] ∅)).2.

(** [Functional.apply(states)]. *)
Definition apply (self : Functional) (states : list State) : Outcome Val :=
  match graphdef self with
  | None => Raise "AssertionError"   (* assert self.graphdef is not None *)
  | Some g => GraphDef_apply g states
  end.

End defs.
End FunctionalWrapper.

(** ** [ToNNX]: a Linen module driven through the NNX API *)

Module ToNNXWrapper.

(** The wrapped [linen.Module], by its two entry points.  Both receive
    the [method] and the keyword arguments of the call. *)
Record LinenModule := mkLinenModule {
  init_with_output :
    gmap string Key → Args → Val → Outcome (Val * gmap string Val);
  linen_apply :
    gmap string Val → Args → gmap string Key → Val → Outcome Val
}.

(** What the adapter asked of the wrapped module. *)
Inductive LinenCall :=
| InitWithOutput (_rngs : gmap string Key) (args : Args) (method : Val)
| Apply (variables : gmap string Val) (args : Args)
        (_rngs : gmap string Key) (method : Val).

(** The attributes set by [__init__], the flag of [_object__state], and
    the attributes added later by [_setattr]. *)
Record ToNNX := mkToNNX {
  module : LinenModule;
  rngs : option (gmap string RngStream);
  linen_collections : gset string;
  _object__state_initializing : bool;
  attrs : gmap string Val
}.

Definition __init__ (module : LinenModule)
    (rngs : option (gmap string RngStream)) : ToNNX :=
  mkToNNX module rngs ∅ false ∅.

Definition _setattr (self : ToNNX) (name : string) (v : Val) : ToNNX :=
  mkToNNX (module self) (rngs self) (linen_collections self)
          (_object__state_initializing self) (<[name := v]> (attrs self)).

Definition add_collection (self : ToNNX) (col : string) : ToNNX :=
  mkToNNX (module self) (rngs self) ({[col]} ∪ linen_collections self)
          (_object__state_initializing self) (attrs self).

Definition set_rngs (self : ToNNX)
    (r : option (gmap string RngStream)) : ToNNX :=
  mkToNNX (module self) r (linen_collections self)
          (_object__state_initializing self) (attrs self).

(** [bool(rngs)] for an optional [Rngs], which is a mapping. *)
Definition rngs_truthy (r : option (gmap string RngStream)) : bool :=
  match r with
  | Some m => negb (bool_decide (m = ∅))
  | None => false
  end.

(** [v == False]: only [False] and [0] compare equal to [False]. *)
Definition py_eq_False (v : Val) : bool :=
  match v with
  | VBool false => true
  | VInt 0 => true
  | _ => false
  end.

(** [a, b = v]. *)
Definition unpack2 (v : Val) : Outcome (Val * Val) :=
  match v with
  | VTuple [a; b] => Ok (a, b)
  | VTuple _ => Raise "ValueError"
  | VDict m =>
      match map_to_list m with
      | [(k1, _); (k2, _)] => Ok (VStr k1, VStr k2)
      | _ => Raise "ValueError"
      end
  | VStr (String c1 (String c2 EmptyString)) =>
      Ok (VStr (String c1 EmptyString), VStr (String c2 EmptyString))
  | VStr _ => Raise "ValueError"
  | _ => Raise "TypeError"
  end.

(** The rngs handed to [init_with_output]: the raw key of every stream,
    with "default" renamed to "params" when there is no "params". *)
Definition init_rngs (rngs : option (gmap string RngStream))
    : gmap string Key :=
  let _rngs : gmap string Key :=
    if rngs_truthy rngs then key <$> default ∅ rngs else ∅ in
  match _rngs !! "params", _rngs !! "default" with
  | None, Some k => <["params" := k]> (delete "default" _rngs)
  | _, _ => _rngs
  end.

Section defs.
(** From [flax.nnx.variables] and [jax.random], outside the excerpt. *)
Variable variable_type : string → Outcome VariableType.
Variable fold_in : Key → nat → Key.

(** Modelled from the spec: [RngStream.__call__] is not part of the
    excerpt.  Section 4.2 has every stream invoked once per call to draw
    a fresh value; a draw folds the draw count into the key and advances
    the count. *)
Definition draw (s : RngStream) : Key := fold_in (key s) (count s).
Definition advance (s : RngStream) : RngStream :=
  mkStream (key s) (S (count s)).

(** The rngs handed to [apply]: one draw from every stream. *)
Definition apply_rngs (rngs : option (gmap string RngStream))
    : gmap string Key :=
  if rngs_truthy rngs then draw <$> default ∅ rngs else ∅.

Definition after_draws (rngs : option (gmap string RngStream))
    : option (gmap string RngStream) :=
  match rngs with
  | Some m => Some (advance <$> m)
  | None => None
  end.

(** [nn_var_to_nnx_state(kp, v)], where [col] is [kp[0].key]: the leaf
    becomes a [Variable] of the category of its collection. *)
Definition nn_var_to_nnx_state (col : string) (v : Val) : Outcome Val :=
  vtype ← variable_type col; Ok (VVariable vtype v).

(** [jtu.tree_map_with_path(nn_var_to_nnx_state, variables)]. *)
Definition tree_map_with_path (variables : gmap string Val)
    : Outcome (gmap string Val) :=
  map_fold (λ col tree acc,
              ys ← acc; y ← tree_mapM (nn_var_to_nnx_state col) tree;
              Ok (<[col := y]> ys))
           (Ok ∅) variables.

(** The ingestion loop of the init branch. *)
Definition ingest (self : ToNNX) (typed : gmap string Val) : ToNNX :=
  map_fold (λ col tree s, add_collection (_setattr s col tree) col)
           self typed.

(** The dict comprehension of the apply branch. *)
Definition collect_variables (self : ToNNX) : Outcome (gmap string Val) :=
  foldr (λ col acc,
           vs ← acc;
           t ← (match attrs self !! col with
                | Some t => Ok t
                | None => Raise "AttributeError"
                end);
           x ← tree_mapM value_of t;
           Ok (<[col := x]> vs))
        (Ok ∅) (elements (linen_collections self)).

(** The loop over [updates.items()]. *)
Fixpoint write_updates (self : ToNNX) (updates : list (string * Val))
    : ToNNX * Outcome unit :=
  match updates with
  | [] => (self, Ok ())
  | (collection, value) :: rest =>
      match variable_type collection with
      | Raise e => (self, Raise e)
      | Ok vtype =>
          write_updates
            (_setattr self collection (tree_map (VVariable vtype) value))
            rest
      end
  end.

(** "Split out the updates if [mutable] is passed". *)
Definition split_updates (self : ToNNX) (kwargs : gmap string Val)
    (out : Val) : ToNNX * Outcome Val :=
  if negb (py_eq_False (default (VBool false) (kwargs !! "mutable"))) then
    match unpack2 out with
    | Raise e => (self, Raise e)
    | Ok (out', VDict updates) =>
        let '(self', r) := write_updates self (map_to_list updates) in
        (self', r ≫= λ _, Ok out')
    | Ok _ => (self, Raise "AttributeError")
    end
  else (self, Ok out).

Record CallResult := mkCallResult {
  self' : ToNNX;                                (* the wrapper afterwards *)
  rngs' : option (gmap string RngStream);       (* the caller's bundle afterwards *)
  calls : list LinenCall;
  result : Outcome Val
}.

(** The bundle a call works with: [if not rngs: rngs = self.rngs]. *)
Definition effective_rngs (self : ToNNX)
    (rngs : option (gmap string RngStream))
    : option (gmap string RngStream) :=
  if rngs_truthy rngs then rngs else ToNNXWrapper.rngs self.

(** Streams are mutable objects: the draws of the apply branch advance
    the bundle that was used, the caller's or the stored one (taken to be
    two objects). *)
Definition commit_draws (self : ToNNX)
    (rngs : option (gmap string RngStream))
    : ToNNX * option (gmap string RngStream) :=
  if rngs_truthy rngs then (self, after_draws rngs)
  else (set_rngs self (after_draws (ToNNXWrapper.rngs self)), rngs).

(** [ToNNX.__call__(args, rngs=None, method=None, kwargs)]. *)
Definition __call__ (self : ToNNX) (args : Args)
    (rngs : option (gmap string RngStream)) (method : Val) : CallResult :=
  let rngs0 := effective_rngs self rngs in
  if _object__state_initializing self then
    let _rngs := init_rngs rngs0 in
    let log := [InitWithOutput _rngs args method] in
    match init_with_output (module self) _rngs args method with
    | Raise e => mkCallResult self rngs log (Raise e)
    | Ok (out, variables) =>
        match tree_map_with_path variables with
        | Raise e => mkCallResult self rngs log (Raise e)
        | Ok typed =>
            let '(self2, r) :=
              split_updates (ingest self typed) (kw args) out in
            mkCallResult self2 rngs log r
        end
    end
  else
    match collect_variables self with
    | Raise e => mkCallResult self rngs [] (Raise e)
    | Ok variables =>
        let _rngs := apply_rngs rngs0 in
        let '(self1, rngs1) := commit_draws self rngs in
        let log := [Apply variables args _rngs method] in
        match linen_apply (module self) variables args _rngs method with
        | Raise e => mkCallResult self1 rngs1 log (Raise e)
        | Ok out =>
            let '(self2, r) := split_updates self1 (kw args) out in
            mkCallResult self2 rngs1 log r
        end
    end.

End defs.
End ToNNXWrapper.

(** ** [ToLinen]: an NNX module driven through the Linen API *)

Module ToLinenWrapper.

(** Modelled from the spec: [linen.Module] and its scope are not part of
    the excerpt.  The adapter uses the phase of the enclosing context
    ([is_initializing]), which collections are writable in the current
    call ([is_mutable_collection]), the stored variables by collection
    and name ([variables], [get_variable], [put_variable]) and the active
    pseudo-random streams ([scope.rngs], [make_rng]). *)
Record Scope := mkScope {
  is_initializing : bool;
  is_mutable_collection : string → bool;
  variables : gmap string (gmap string Val);
  scope_rngs : gmap string Key;
  rng_counters : gmap string nat
}.

Definition set_variables (sc : Scope)
    (vs : gmap string (gmap string Val)) : Scope :=
  mkScope (is_initializing sc) (is_mutable_collection sc) vs
          (scope_rngs sc) (rng_counters sc).

(** Modelled from the spec: [put_variable(col, name, value)] stores the
    value under that collection and name.  The adapter calls it on
    writable collections only. *)
Definition put (vs : gmap string (gmap string Val))
    (w : string * string * Val) : gmap string (gmap string Val) :=
  let '(col, name, value) := w in
  <[col := <[name := value]> (default ∅ (vs !! col))]> vs.

Definition put_variable (sc : Scope) (col name : string) (value : Val)
    : Scope :=
  set_variables sc (put (variables sc) (col, name, value)).

(** Modelled from the spec: reading the stored graph definition "fails
    with MissingGraphDefError if absent" (section 4.3). *)
Definition get_variable (sc : Scope) (col name : string) : Outcome Val :=
  match variables sc !! col ≫= (λ c, c !! name) with
  | Some v => Ok v
  | None => Raise "MissingGraphDefError"
  end.

(** The value stored under a collection and name, if any. *)
Definition stored (vs : gmap string (gmap string Val)) (col name : string)
    : option Val :=
  vs !! col ≫= (λ c, c !! name).

(** The last value a list of writes gives to a collection and name. *)
Definition last_write (ws : list (string * string * Val))
    (col name : string) : option Val :=
  foldl (λ acc w, if decide (w.1 = (col, name)) then Some w.2 else acc)
        None ws.

Section defs.
Context {NNXModule : Type}.

(** From [flax.nnx], [flax.nnx.variables] and [jax.random], outside the
    excerpt. *)
Variable nnx_split : NNXModule → GraphDef * State.
Variable nnx_split_types :
  NNXModule → list VariableType → Outcome (list State).
Variable nnx_merge : Val → State → Outcome NNXModule.
Variable State_merge : list State → State.
Variable reseed : NNXModule → gmap string Key → NNXModule.
Variable module_call : NNXModule → Args → NNXModule * Outcome Val.
Variable sort_variable_types : gset VariableType → list VariableType.
Variable variable_type_name : VariableType → string.
Variable fold_in : Key → nat → Key.

Record ToLinen := mkToLinen {
  nnx_class : list Val → gmap string Val → Outcome NNXModule;
  args : list Val;
  kwargs : gmap string Val;
  skip_rng : bool
}.

(** [to_linen(nnx_class, args, kwargs)]. *)
Definition to_linen
    (nnx_class : list Val → gmap string Val → Outcome NNXModule)
    (args : list Val) (kwargs : gmap string Val) : ToLinen :=
  mkToLinen nnx_class args kwargs false.

(** Modelled from the spec: [make_rng(name)] derives a fresh key from the
    named stream of the enclosing context and advances that stream. *)
Definition make_rng (sc : Scope) (name : string) : Key * Scope :=
  let n := default 0 (rng_counters sc !! name) in
  (fold_in (default 0%Z (scope_rngs sc !! name)) n,
   mkScope (is_initializing sc) (is_mutable_collection sc) (variables sc)
           (scope_rngs sc) (<[name := S n]> (rng_counters sc))).

(** [linen_rngs_dict(linen_module)]. *)
Definition linen_rngs_dict (scope : option Scope)
    : Outcome (gmap string Key * Scope) :=
  match scope with
  | None => Raise "AssertionError"
  | Some sc =>
      Ok (foldr (λ name acc,
                   let '(k, sc') := make_rng acc.2 name in
                   (<[name := k]> acc.1, sc'))
                (∅, sc) (elements (dom (scope_rngs sc))))
  end.

(** The writes one pair of [zip(types, state_by_types)] gives rise to:
    one per top-level entry of the state, if the collection is
    writable. *)
Definition type_writes (sc : Scope) (typ : VariableType) (state : State)
    : list (string * string * Val) :=
  let collection := variable_type_name typ in
  if is_mutable_collection sc collection then
    (λ kv, (collection, kv.1, kv.2)) <$> map_to_list (raw_mapping state)
  else [].

(** [ToLinen.update_variables(module)].  The graph definition is stored
    before the state is inspected, so it stays stored when what follows
    raises. *)
Definition update_variables (module : NNXModule) (sc : Scope)
    : Scope * Outcome unit :=
  let '(gdef, state) := nnx_split module in
  let sc1 :=
    if is_mutable_collection sc "nnx"
    then put_variable sc "nnx" "graphdef" (VGraphDef gdef)
    else sc in
  match state_types (VDict (raw_mapping state)) with
  | Raise e => (sc1, Raise e)
  | Ok ts =>
      let types := sort_variable_types (list_to_set ts) in
      match nnx_split_types module types with
      | Raise e => (sc1, Raise e)
      | Ok state_by_types =>
          (foldl (λ sc2 '(typ, state),
                    let collection := variable_type_name typ in
                    if is_mutable_collection sc2 collection then
                      foldl (λ sc3 '(k, v), put_variable sc3 collection k v)
                            sc2 (map_to_list (raw_mapping state))
                    else sc2)
                 sc1 (zip types state_by_types),
           Ok ())
      end
  end.

(** Everything one run of [update_variables] stores, in order: a
    function of the module and of which collections are writable. *)
Definition captured_writes (module : NNXModule) (sc : Scope)
    : list (string * string * Val) :=
  let '(gdef, state) := nnx_split module in
  (if is_mutable_collection sc "nnx"
   then [("nnx", "graphdef", VGraphDef gdef)] else []) ++
  match state_types (VDict (raw_mapping state)) with
  | Raise _ => []
  | Ok ts =>
      let types := sort_variable_types (list_to_set ts) in
      match nnx_split_types module types with
      | Raise _ => []
      | Ok state_by_types =>
          zip types state_by_types ≫= λ '(typ, state), type_writes sc typ state
      end
  end.

(** Whether a run of [update_variables] returns or raises. *)
Definition capture_outcome (module : NNXModule) : Outcome unit :=
  let '(gdef, state) := nnx_split module in
  ts ← state_types (VDict (raw_mapping state));
  _ ← nnx_split_types module (sort_variable_types (list_to_set ts));
  Ok ().

(** The state rebuilt on the apply path: every stored collection but
    "nnx". *)
Definition stored_states (sc : Scope) : list State :=
  (λ kv, mkState kv.2)
    <$> filter (λ kv, kv.1 ≠ "nnx") (map_to_list (variables sc)).

Definition nnx_state (sc : Scope) : State :=
  match stored_states sc with
  | [] => mkState ∅
  | states => State_merge states
  end.

Record CallResult := mkCallResult {
  scope' : Scope;                  (* the enclosing context afterwards *)
  merges : list (Val * State);     (* the calls made to [nnx.merge] *)
  result : Outcome Val
}.

(** [ToLinen.__call__(args, kwargs)]. *)
Definition __call__ (self : ToLinen) (call_args : Args) (sc : Scope)
    : CallResult :=
  if is_initializing sc then
    (* init codepath *)
    let module_kwargs := kwargs self in
    match (if skip_rng self then Ok (module_kwargs, sc)
           else '(d, sc') ← linen_rngs_dict (Some sc);
                Ok (<["rngs" := VRngs ((λ k, mkStream k 0) <$> d)]>
                      module_kwargs, sc')) with
    | Raise e => mkCallResult sc [] (Raise e)
    | Ok (module_kwargs, sc1) =>
        match nnx_class self (args self) module_kwargs with
        | Raise e => mkCallResult sc1 [] (Raise e)
        | Ok module =>
            let '(sc2, r) := update_variables module sc1 in
            match r with
            | Raise e => mkCallResult sc2 [] (Raise e)
            | Ok _ => mkCallResult sc2 [] (module_call module call_args).2
            end
        end
    end
  else
    (* apply codepath *)
    match get_variable sc "nnx" "graphdef" with
    | Raise e => mkCallResult sc [] (Raise e)
    | Ok gdef =>
        let st := nnx_state sc in
        let log := [(gdef, st)] in
        match nnx_merge gdef st with
        | Raise e => mkCallResult sc log (Raise e)
        | Ok module =>
            match linen_rngs_dict (Some sc) with
            | Raise e => mkCallResult sc log (Raise e)
            | Ok (d, sc1) =>
                let module1 := reseed module d in
                let '(module2, out) := module_call module1 call_args in
                match out with
                | Raise e => mkCallResult sc1 log (Raise e)
                | Ok out =>
                    let '(sc2, r) := update_variables module2 sc1 in
                    mkCallResult sc2 log (r ≫= λ _, Ok out)
                end
            end
        end
    end.

End defs.
End ToLinenWrapper.

(** ** Small instances, used to run the definitions *)

Module Examples.

(** A root module with two sub-modules that own the same object. *)
Definition diamond : gmap oid Node :=
  list_to_map
    [ (0, mkNode KModule false [("left", 1); ("right", 2)]);
      (1, mkNode KModule false [("shared", 3)]);
      (2, mkNode KModule false [("shared", 3)]);
      (3, mkNode KObject false []) ].

Definition no_args : Args := mkArgs [] ∅.

(** A call that returns 7, and one that raises. *)
Definition returns7 (fn : Val) (a : Args) (h : gmap oid Node)
    : gmap oid Node * Outcome Val := (h, Ok (VInt 7)).
Definition raises (fn : Val) (a : Args) (h : gmap oid Node)
    : gmap oid Node * Outcome Val := (h, Raise "ValueError").
Definition always (v : Val) : bool := true.

End Examples.

Module FunctionalExamples.
Import FunctionalWrapper.

(** A toy NNX world: a module is its state, the graph definition is
    constant, and calling a module returns the number of its entries. *)
Definition split (m : gmap string Val) : GraphDef * State :=
  (mkGraphDef 0, mkState m).
Definition merge (g : GraphDef) (states : list State)
    : Outcome (gmap string Val) :=
  match states with
  | [s] => Ok (raw_mapping s)
  | _ => Raise "TypeError"
  end.
Definition call (m : gmap string Val) (a : Args)
    : gmap string Val * Outcome Val :=
  (m, Ok (VInt (Z.of_nat (size m)))).
Definition Linear (args : list Val) (kwargs : gmap string Val)
    : Outcome (gmap string Val) :=
  Ok {[ "kernel" := VVariableState "Param" (VInt 1) ]}.
Definition kernel : State :=
  mkState {[ "kernel" := VVariableState "Param" (VInt 1) ]}.

End FunctionalExamples.

Module ToNNXExamples.
Import ToNNXWrapper.

Definition variable_type (col : string) : Outcome VariableType :=
  if decide (col = "params") then Ok "Param"
  else if decide (col = "batch_stats") then Ok "BatchStat"
  else Raise "UnknownCollectionError".

Definition vtype (col : string) : VariableType :=
  if decide (col = "params") then "Param" else "BatchStat".

Definition fold_in (k : Key) (n : nat) : Key := (k * 100 + Z.of_nat n)%Z.

(** A normalisation layer: its scale is initialised from the "params"
    key; applied with [mutable] it also returns a new running mean. *)
Definition batch_norm : LinenModule :=
  mkLinenModule
    (λ _rngs args method,
       match _rngs !! "params" with
       | Some k =>
           Ok (VInt 0, {[ "params" := VDict {[ "scale" := VInt k ]};
                          "batch_stats" := VDict {[ "mean" := VInt 0 ]} ]})
       | None => Raise "KeyError"
       end)
    (λ variables args _rngs method,
       match kw args !! "mutable" with
       | Some _ =>
           Ok (VTuple [VInt 1;
                       VDict {[ "batch_stats" := VDict {[ "mean" := VInt 5 ]} ]}])
       | None => Ok (VInt 1)
       end).

Definition stored_bundle : gmap string RngStream :=
  {[ "default" := mkStream 42%Z 0 ]}.
Definition call_bundle : gmap string RngStream :=
  {[ "params" := mkStream 7%Z 0; "default" := mkStream 8%Z 0 ]}.

Definition fresh : ToNNX := __init__ batch_norm (Some stored_bundle).

Definition with_flag (b : bool) (self : ToNNX) : ToNNX :=
  mkToNNX (module self) (rngs self) (linen_collections self) b (attrs self).

Definition x : Args := mkArgs [VInt 3] ∅.
Definition x_mutable : Args :=
  mkArgs [VInt 3] {[ "mutable" := VTuple [VStr "batch_stats"] ]}.

(** The wrapper after [lazy_init(x)]. *)
Definition ready : ToNNX :=
  with_flag false
    (self' (__call__ variable_type fold_in (with_flag true fresh) x None VNone)).

End ToNNXExamples.

Module ToLinenExamples.
Import ToLinenWrapper.

(** A toy NNX world: a module is its top-level state. *)
Definition split (m : gmap string Val) : GraphDef * State :=
  (mkGraphDef 0, mkState m).

Definition has_type (t : VariableType) (v : Val) : bool :=
  match v with
  | VVariableState t' _ => bool_decide (t' = t)
  | _ => false
  end.

Definition split_types (m : gmap string Val) (types : list VariableType)
    : Outcome (list State) :=
  Ok ((λ t, mkState (filter (λ kv, has_type t kv.2 = true) m)) <$> types).

Definition merge (gdef : Val) (st : State) : Outcome (gmap string Val) :=
  match gdef with
  | VGraphDef _ => Ok (raw_mapping st)
  | _ => Raise "TypeError"
  end.

Definition State_merge (states : list State) : State :=
  mkState (foldr (λ s acc, raw_mapping s ∪ acc) ∅ states).

Definition reseed (m : gmap string Val) (d : gmap string Key)
    : gmap string Val := m.

Definition call (m : gmap string Val) (a : Args)
    : gmap string Val * Outcome Val :=
  (m, Ok (VInt (Z.of_nat (size m)))).

Definition sort_variable_types (ts : gset VariableType)
    : list VariableType := elements ts.

Definition variable_type_name (t : VariableType) : string :=
  if decide (t = "Param") then "params"
  else if decide (t = "BatchStat") then "batch_stats"
  else t.

Definition fold_in (k : Key) (n : nat) : Key := (k * 100 + Z.of_nat n)%Z.

Definition BatchNorm (args : list Val) (kwargs : gmap string Val)
    : Outcome (gmap string Val) :=
  Ok {[ "scale" := VVariableState "Param" (VInt 1);
        "mean" := VVariableState "BatchStat" (VInt 0) ]}.

Definition layer : ToLinen := to_linen BatchNorm [VInt 4] ∅.

Definition init_scope : Scope :=
  mkScope true (λ _, true) ∅ {[ "params" := 1%Z ]} ∅.

Definition x : Args := mkArgs [VInt 3] ∅.

Definition run (sc : Scope) : CallResult :=
  __call__ split split_types merge State_merge reseed call
    sort_variable_types variable_type_name fold_in layer x sc.

(** The context of a later [apply]: the stored variables, not
    initializing, only "batch_stats" writable. *)
Definition apply_scope : Scope :=
  mkScope false (λ col, bool_decide (col = "batch_stats"))
    (variables (scope' (run init_scope))) {[ "dropout" := 2%Z ]} ∅.

Definition empty_apply_scope : Scope :=
  mkScope false (λ _, false) ∅ ∅ ∅.

End ToLinenExamples.

(** ** A measure on values *)

(** The number of constructors of a value; recursion over trees of
    values is justified by it. *)
Fixpoint Val_size (v : Val) : nat :=
  match v with
  | VTuple vs => S (foldr (λ x acc, Val_size x + acc) 0 vs)
  | VDict m => S (map_fold (λ _ x acc, Val_size x + acc) 0 m)
  | VVariable _ x => S (Val_size x)
  | VVariableState _ x => S (Val_size x)
  | _ => 1
  end.

(** The values [jax.tree.map] hands to its function. *)
Definition tree_leaf (v : Val) : bool :=
  match v with
  | VNone | VTuple _ | VDict _ | VVariableState _ _ => false
  | _ => true
  end.

(** ** More small instances *)

Module MoreExamples.

(** The diamond of [Examples] next to an object that the root does not
    own and whose flag is set. *)
Definition diamond_and_stray : gmap oid Node :=
  <[4 := mkNode KObject true [("back", 0)]]> Examples.diamond.

(** A call that returns without touching the store. *)
Definition returns_none (fn : Val) (a : Args) (h : gmap oid Node)
    : gmap oid Node * Outcome Val := (h, Ok VNone).

(** What [ToNNXExamples.batch_norm] initialises from the key 42. *)
Definition bn_variables : gmap string Val :=
  {[ "params" := VDict {[ "scale" := VInt 42 ]};
     "batch_stats" := VDict {[ "mean" := VInt 0 ]} ]}.


(** A wrapper with no stream bundle, about to be initialised. *)
Definition bn_without_rngs : ToNNXWrapper.ToNNX :=
  ToNNXExamples.with_flag true
    (ToNNXWrapper.__init__ ToNNXExamples.batch_norm None).

(** A wrapper whose "params" attribute was deleted after initialisation. *)
Definition bn_broken : ToNNXWrapper.ToNNX :=
  ToNNXWrapper.mkToNNX ToNNXExamples.batch_norm
    (Some ToNNXExamples.stored_bundle) {[ "params" ]} false ∅.

(** A naming of variable types that never yields "nnx". *)
Definition collection_of (t : VariableType) : string :=
  if decide (t = "Param") then "params" else "batch_stats".

(** [ToLinenExamples.layer] run with that naming. *)
Definition run_layer (sc : ToLinenWrapper.Scope)
    : ToLinenWrapper.CallResult :=
  ToLinenWrapper.__call__ ToLinenExamples.split ToLinenExamples.split_types
    ToLinenExamples.merge ToLinenExamples.State_merge ToLinenExamples.reseed
    ToLinenExamples.call ToLinenExamples.sort_variable_types collection_of
    ToLinenExamples.fold_in ToLinenExamples.layer ToLinenExamples.x sc.

(** The variables left by an init call, in a context where nothing is
    writable. *)
Definition frozen_scope : ToLinenWrapper.Scope :=
  ToLinenWrapper.mkScope false (λ _, false)
    (ToLinenWrapper.variables
       (ToLinenWrapper.scope' (run_layer ToLinenExamples.init_scope)))
    {[ "dropout" := 2%Z ]} ∅.

(** A module whose scale changed and one that lost its scale. *)
Definition rescaled : gmap string Val :=
  {[ "scale" := VVariableState "Param" (VInt 7);
     "mean" := VVariableState "BatchStat" (VInt 9) ]}.
Definition without_scale : gmap string Val :=
  {[ "mean" := VVariableState "BatchStat" (VInt 9) ]}.

(** A module call that changes the module before returning. *)
Definition call_and_reset (m : gmap string Val) (a : Args)
    : gmap string Val * Outcome Val := (∅, Ok VNone).

End MoreExamples.

(** ** Configuration flags ([flax/configurations.py]) *)

Module Configurations.

(** [str.lower] on the letters A to Z.  The values [static_bool_env]
    accepts are made of ASCII letters and digits, and no other character
    lower-cases to one of their letters, so the other bytes are left as
    they are. *)
Definition lower_char (c : Ascii.ascii) : Ascii.ascii :=
  let n := Ascii.nat_of_ascii c in
  if (65 <=? n) && (n <=? 90) then Ascii.ascii_of_nat (n + 32) else c.

Fixpoint lower (s : string) : string :=
  match s with
  | EmptyString => EmptyString
  | String c rest => String (lower_char c) (lower rest)
  end.

(** [str(b)] for a boolean. *)
Definition str_bool (b : bool) : string := if b then "True" else "False".

Definition true_values : list string := ["y"; "yes"; "t"; "true"; "on"; "1"].
Definition false_values : list string := ["n"; "no"; "f"; "false"; "off"; "0"].

(** [static_bool_env(varname, default)], over the process environment. *)
Definition static_bool_env (environ : gmap string string)
    (varname : string) (default : bool) : Outcome bool :=
  (* val = os.getenv(varname, str(default)) *)
  let val := match environ !! varname with
             | Some v => v
             | None => str_bool default
             end in
  let val := lower val in
  if bool_decide (val ∈ true_values) then Ok true
  else if bool_decide (val ∈ false_values) then Ok false
  else Raise "ValueError".

(** [temp_flip_flag(var_name, var_value)] around the body of a [with]
    block.  The configuration object is taken as a map from flag names to
    values: reading a flag that does not exist is an [AttributeError],
    [config.update] overwrites.  The body is any transformer of the
    configuration that returns or raises. *)
Definition temp_flip_flag (var_name : string) (var_value : bool)
    (body : gmap string bool → gmap string bool * Outcome unit)
    (config : gmap string bool) : gmap string bool * Outcome unit :=
  let name := String.append "flax_" var_name in
  (* old_value = getattr(config, name) *)
  match config !! name with
  | None => (config, Raise "AttributeError")
  | Some old_value =>
      (* try: config.update(name, var_value); yield *)
      let '(config', r) := body (<[name := var_value]> config) in
      (* finally: config.update(name, old_value) *)
      (<[name := old_value]> config', r)
  end.

(** [flax_lazy_rng = static_bool_env('FLAX_LAZY_RNG', True)]. *)
Definition flax_lazy_rng (environ : gmap string string) : Outcome bool :=
  static_bool_env environ "FLAX_LAZY_RNG" true.

End Configurations.

Module ConfigurationExamples.

Definition environ : gmap string string :=
  {[ "FLAX_LAZY_RNG" := "Off"; "HOME" := "/root" ]}.

Definition config : gmap string bool :=
  {[ "flax_profile" := true; "flax_fix_rng_separator" := false ]}.

(** A test body that flips another flag and fails. *)
Definition failing_body (c : gmap string bool)
    : gmap string bool * Outcome unit :=
  (<["flax_fix_rng_separator" := true]> c, Raise "AssertionError").

(** A test body that leaves the configuration alone. *)
Definition quiet_body (c : gmap string bool)
    : gmap string bool * Outcome unit := (c, Ok ()).

End ConfigurationExamples.
(** ** Facts about the traversal *)

Section traversal.
Implicit Types (h : gmap oid Node) (x y c : oid) (visited vis : list oid).

Lemma unvisited_mono h vis vis' :
  (∀ y, y ∈ vis → y ∈ vis') → unvisited h vis' ≤ unvisited h vis.
Proof.
  intros Hsub. apply subseteq_size. intros y.
  rewrite !elem_of_difference, !elem_of_list_to_set.
  intros [Hy Hn]. split; [done|]. intros Hv. by apply Hn, Hsub.
Qed.

Lemma unvisited_cons h vis x :
  x ∈ dom h → x ∉ vis → unvisited h (x :: vis) < unvisited h vis.
Proof.
  intros Hd Hn. apply subset_size. split.
  - intros y. rewrite !elem_of_difference, !elem_of_list_to_set.
    rewrite elem_of_cons. intros [Hy Hv]. split; [done|]. intros Hv'. apply Hv. by right.
  - intros Hsub. specialize (Hsub x).
    rewrite !elem_of_difference, !elem_of_list_to_set in Hsub.
    destruct Hsub as [_ Hx]; [done|]. apply Hx. left.
Qed.

Lemma children_no_node h x : x ∉ dom h → children h x = [].
Proof.
  intros Hx. unfold children.
  apply not_elem_of_dom in Hx. by rewrite Hx.
Qed.

Lemma visit_children_post h f :
  (∀ x vis, unvisited h vis < f → visit_post h vis [x] (visit f h x vis)) →
  ∀ cs vis, unvisited h vis < f →
    visit_post h vis cs (foldl (λ vis c, visit f h c vis) vis cs).
Proof.
  intros IHf cs. induction cs as [|c cs IH]; intros vis Hfuel; simpl.
  - repeat split; try done. intros c Hc. by apply elem_of_nil in Hc.
  - destruct (IHf c vis Hfuel) as (Hsub1 & Hin1 & Hnd1 & Hcl1).
    set (vis1 := visit f h c vis) in *.
    assert (unvisited h vis1 < f) as Hfuel1.
    { pose proof (unvisited_mono h vis vis1 Hsub1). lia. }
    destruct (IH vis1 Hfuel1) as (Hsub2 & Hin2 & Hnd2 & Hcl2).
    repeat split.
    + auto.
    + intros c' [->|Hc']%elem_of_cons; [|by auto].
      apply Hsub2, Hin1. left.
    + auto.
    + intros y Hy Hny c' Hc'.
      destruct (decide (y ∈ vis1)) as [Hy1|Hy1].
      * apply Hsub2. by eapply Hcl1.
      * by eapply Hcl2.
Qed.

Lemma visit_spec h fuel :
  ∀ x vis, unvisited h vis < fuel → visit_post h vis [x] (visit fuel h x vis).
Proof.
  induction fuel as [|f IHf]; intros x vis Hfuel; [lia|].
  simpl. case_bool_decide as Hx.
  - repeat split; try done.
    intros c ->%list_elem_of_singleton. done.
  - destruct (decide (x ∈ dom h)) as [Hd|Hd].
    + assert (unvisited h (x :: vis) < f) as Hfuel'.
      { pose proof (unvisited_cons h vis x Hd Hx). lia. }
      destruct (visit_children_post h f IHf (children h x) (x :: vis) Hfuel')
        as (Hsub & Hin & Hnd & Hcl).
      repeat split.
      * intros y Hy. apply Hsub. by right.
      * intros c ->%list_elem_of_singleton. apply Hsub. left.
      * intros Hvis. apply Hnd. by constructor.
      * intros y Hy Hny c Hc.
        destruct (decide (y = x)) as [->|Hne]; [by apply Hin|].
        eapply Hcl; [done| |done].
        rewrite elem_of_cons. intros [Heq|Hv]; [by apply Hne|by apply Hny].
    + rewrite (children_no_node h x Hd). simpl.
      repeat split.
      * intros y Hy. by right.
      * intros c ->%list_elem_of_singleton. left.
      * intros Hvis. by constructor.
      * intros y Hy Hny c Hc.
        apply elem_of_cons in Hy as [Heq|Hy]; [subst y|done].
        rewrite (children_no_node h x Hd) in Hc. by apply elem_of_nil in Hc.
Qed.

Lemma iter_graph_post h root :
  visit_post h [] [root] (iter_graph h root).
Proof.
  unfold iter_graph.
  assert (unvisited h [] < S (size h)) as Hfuel.
  { unfold unvisited. rewrite <-size_dom.
    pose proof (subseteq_size (dom h ∖ (list_to_set [] : gset oid)) (dom h)) as Hs.
    assert (dom h ∖ (list_to_set [] : gset oid) ⊆ dom h) as Hd.
    { intros y Hy. by apply elem_of_difference in Hy as [? _]. }
    specialize (Hs Hd). lia. }
  destruct (visit_spec h (S (size h)) root [] Hfuel) as (Hsub & Hin & Hnd & Hcl).
  repeat split.
  - intros y Hy. by apply elem_of_nil in Hy.
  - intros c Hc. rewrite elem_of_reverse. by apply Hin.
  - intros _. rewrite reverse_Permutation. apply Hnd. constructor.
  - intros y Hy Hny c Hc. rewrite elem_of_reverse in *. by eapply Hcl.
Qed.

Lemma iter_graph_NoDup h root : NoDup (iter_graph h root).
Proof. apply iter_graph_post. constructor. Qed.

Lemma iter_graph_reachable h root o :
  reachable h root o → o ∈ iter_graph h root.
Proof.
  destruct (iter_graph_post h root) as (_ & Hin & _ & Hcl).
  induction 1 as [|x y _ IH Hy].
  - apply Hin. left.
  - eapply Hcl; [exact IH| |exact Hy]. intros Hn. by apply elem_of_nil in Hn.
Qed.

(** The walk stays inside what the root owns. *)
Lemma visit_sound h root fuel : ∀ x vis,
  reachable h root x → (∀ y, y ∈ vis → reachable h root y) →
  ∀ y, y ∈ visit fuel h x vis → reachable h root y.
Proof.
  induction fuel as [|f IHf]; intros x vis Hx Hvis; simpl; [done|].
  case_bool_decide; [done|].
  assert (∀ c, c ∈ children h x → reachable h root c) as Hcs.
  { intros c Hc. by eapply reach_step. }
  assert (∀ y, y ∈ x :: vis → reachable h root y) as Hvis'.
  { intros y [->|Hy]%elem_of_cons; auto. }
  revert Hcs Hvis'. generalize (x :: vis) (children h x).
  intros acc cs. revert acc.
  induction cs as [|c cs IH]; intros acc Hcs Hacc; simpl; [done|].
  apply IH.
  - intros c' Hc'. apply Hcs. by right.
  - apply IHf; [|done]. apply Hcs. left.
Qed.

Lemma iter_graph_sound h root o :
  o ∈ iter_graph h root → reachable h root o.
Proof.
  unfold iter_graph. rewrite elem_of_reverse.
  apply visit_sound; [apply reach_root|].
  intros y Hy. by apply elem_of_nil in Hy.
Qed.

End traversal.

(** ** Facts about the toggle *)

Section toggle.
Implicit Types (h : gmap oid Node) (x y o : oid) (b : bool).

Lemma set_node_idemp b n : set_node b (set_node b n) = set_node b n.
Proof. unfold set_node, is_Object. by destruct n as [[] ? ?]. Qed.

Lemma set_node_children b n : node_dict (set_node b n) = node_dict n.
Proof. unfold set_node. by destruct (is_Object n). Qed.

Lemma set_node_is_Object b n : is_Object (set_node b n) = is_Object n.
Proof. unfold set_node, is_Object. by destruct n as [[] ? ?]. Qed.

Lemma set_node_flag b n :
  is_Object n = true → initializing (set_node b n) = b.
Proof. unfold set_node. by intros ->. Qed.

Lemma set_flag_lookup b h x y :
  set_flag b h x !! y =
    if decide (x = y) then set_node b <$> h !! y else h !! y.
Proof.
  unfold set_flag. destruct (h !! x) as [n|] eqn:Hx.
  - rewrite lookup_insert. repeat case_decide; subst; try done.
    by rewrite Hx.
  - case_decide; subst; [by rewrite Hx|done].
Qed.

Lemma foldl_set_flag_lookup b l : ∀ h y,
  foldl (set_flag b) h l !! y =
    if decide (y ∈ l) then set_node b <$> h !! y else h !! y.
Proof.
  induction l as [|x l IH]; intros h y; cbn [foldl].
  - destruct (decide (y ∈ [])) as [Hy|_]; [by apply elem_of_nil in Hy|done].
  - rewrite IH, set_flag_lookup.
    destruct (decide (y ∈ l)) as [Hy|Hy], (decide (x = y)) as [Heq|Hne];
      subst.
    + rewrite (decide_True (P := y ∈ y :: l)) by left.
      destruct (h !! y) as [n|]; simpl; [|done]. by rewrite set_node_idemp.
    + rewrite (decide_True (P := y ∈ x :: l)); [done|by right].
    + by rewrite (decide_True (P := y ∈ y :: l)) by left.
    + rewrite (decide_False (P := y ∈ x :: l)); [done|].
      rewrite elem_of_cons. intros [Heq|Hl]; [by apply Hne|by apply Hy].
Qed.

Lemma set_initializing_lookup h root b y :
  _set_initializing h root b !! y =
    if decide (y ∈ iter_graph h root) then set_node b <$> h !! y else h !! y.
Proof. apply foldl_set_flag_lookup. Qed.

Lemma set_initializing_children h root b y :
  children (_set_initializing h root b) y = children h y.
Proof.
  unfold children. rewrite set_initializing_lookup.
  case_decide; [|done].
  destruct (h !! y) as [n|]; simpl; [|done]. by rewrite set_node_children.
Qed.

Lemma set_initializing_reachable h root b r o :
  reachable (_set_initializing h root b) r o ↔ reachable h r o.
Proof.
  split; induction 1 as [|x y _ IH Hy]; try apply reach_root.
  - eapply reach_step; [exact IH|]. by rewrite set_initializing_children in Hy.
  - eapply reach_step; [exact IH|]. by rewrite set_initializing_children.
Qed.

(** Every object owned, directly or not, by [root] carries the new flag. *)
Lemma set_initializing_flag h root b o n :
  reachable h root o → h !! o = Some n → is_Object n = true →
  _set_initializing h root b !! o = Some (set_node b n) ∧
  flag_of (_set_initializing h root b) o = Some b.
Proof.
  intros Hr Ho Hobj. unfold flag_of.
  rewrite set_initializing_lookup, decide_True by by apply iter_graph_reachable.
  rewrite Ho. simpl. split; [done|].
  by rewrite set_node_is_Object, Hobj, set_node_flag.
Qed.

Lemma exactly_once (l : list oid) x :
  NoDup l → x ∈ l → ∃ l1 l2, l = l1 ++ x :: l2 ∧ (x ∉ l1) ∧ (x ∉ l2).
Proof.
  intros Hnd Hx. apply list_elem_of_split in Hx as (l1 & l2 & ->).
  exists l1, l2. split; [done|].
  apply NoDup_app in Hnd as (_ & Hd & Hnd2).
  apply NoDup_cons in Hnd2 as [Hx2 _]. split; [|done].
  intros Hx1. apply (Hd x Hx1). left.
Qed.

End toggle.

(** ** The initialization-phase toggle and [lazy_init] *)

Section lazy_init_facts.
Variable callable : Val → bool.
Variable invoke : Val → Args → gmap oid Node → gmap oid Node * Outcome Val.

Lemma lazy_init_unfold fn args h module :
  lazy_init_module callable h fn = Ok module →
  lazy_init callable invoke fn args h =
    let hr := invoke fn args (_set_initializing h module true) in
    (_set_initializing hr.1 module false, hr.2 ≫= λ _, Ok fn).
Proof.
  intros Hm. unfold lazy_init. rewrite Hm.
  by destruct (invoke fn args _) as [h2 r].
Qed.

(** C1: whatever the wrapped call does, returning or raising, every
    object reachable from the module when [lazy_init] is left has its
    initializing flag false. *)
Theorem lazy_init_resets_flag fn args h module h' r o n :
  lazy_init_module callable h fn = Ok module →
  lazy_init callable invoke fn args h = (h', r) →
  reachable h' module o → h' !! o = Some n → is_Object n = true →
  initializing n = false.
Proof.
  intros Hm Hrun Hreach Ho Hobj.
  rewrite (lazy_init_unfold _ _ _ _ Hm) in Hrun. simpl in Hrun.
  destruct (invoke fn args _) as [h2 r2]. simpl in Hrun.
  injection Hrun as <- _.
  apply set_initializing_reachable in Hreach.
  rewrite set_initializing_lookup in Ho.
  rewrite decide_True in Ho by by apply iter_graph_reachable.
  destruct (h2 !! o) as [m|]; simpl in Ho; [|done].
  injection Ho as <-.
  rewrite set_node_is_Object in Hobj. by apply set_node_flag.
Qed.

(** C2, as the code has it: when the wrapped call returns, [lazy_init]
    returns [fn] itself, the module or bound method it was given; the
    value of the call is dropped. *)
Theorem lazy_init_returns_fn fn args h module h2 v :
  lazy_init_module callable h fn = Ok module →
  invoke fn args (_set_initializing h module true) = (h2, Ok v) →
  lazy_init callable invoke fn args h =
    (_set_initializing h2 module false, Ok fn).
Proof.
  intros Hm Hcall. rewrite (lazy_init_unfold _ _ _ _ Hm). by rewrite Hcall.
Qed.

End lazy_init_facts.

(** C8: a sub-object owned by two parents is visited exactly once, both
    parents still refer to it afterwards and read the new flag on it, and
    every object reachable from the root ends with the supplied flag. *)
Theorem set_initializing_shared_once h root flag p1 p2 s n o m :
  reachable h root p1 → reachable h root p2 → p1 ≠ p2 →
  s ∈ children h p1 → s ∈ children h p2 →
  h !! s = Some n → is_Object n = true →
  reachable h root o → h !! o = Some m → is_Object m = true →
  let h' := _set_initializing h root flag in
  (∃ l1 l2, iter_graph h root = l1 ++ s :: l2 ∧ (s ∉ l1) ∧ (s ∉ l2)) ∧
  (s ∈ children h' p1 ∧ s ∈ children h' p2 ∧ flag_of h' s = Some flag) ∧
  flag_of h' o = Some flag.
Proof.
  intros Hp1 Hp2 _ Hs1 Hs2 Hn Hobj Ho Hm Hobjm h'.
  assert (reachable h root s) as Hs.
  { eapply reach_step; [exact Hp1|exact Hs1]. }
  split; [|split].
  - apply exactly_once; [apply iter_graph_NoDup|by apply iter_graph_reachable].
  - subst h'. rewrite !set_initializing_children.
    split; [done|]. split; [done|].
    by eapply set_initializing_flag.
  - by eapply set_initializing_flag.
Qed.

Example iter_graph_diamond : iter_graph Examples.diamond 0 = [0; 1; 3; 2].
Proof. vm_compute. reflexivity. Qed.

Example diamond_during_init :
  flag_of (_set_initializing Examples.diamond 0 true) 3 = Some true.
Proof. vm_compute. reflexivity. Qed.

Lemma diamond_reachable_1 : reachable Examples.diamond 0 1.
Proof.
  eapply reach_step; [apply reach_root|].
  vm_compute. apply list_elem_of_here.
Qed.

Lemma diamond_reachable_2 : reachable Examples.diamond 0 2.
Proof.
  eapply reach_step; [apply reach_root|].
  vm_compute. apply list_elem_of_further, list_elem_of_here.
Qed.

Lemma diamond_reachable_3 : reachable Examples.diamond 0 3.
Proof.
  eapply reach_step; [apply diamond_reachable_1|].
  vm_compute. apply list_elem_of_here.
Qed.

Lemma set_initializing_shared_once_witness :
  let h' := _set_initializing Examples.diamond 0 true in
  (∃ l1 l2, iter_graph Examples.diamond 0 = l1 ++ 3 :: l2 ∧ (3 ∉ l1) ∧ (3 ∉ l2)) ∧
  (3 ∈ children h' 1 ∧ 3 ∈ children h' 2 ∧ flag_of h' 3 = Some true) ∧
  flag_of h' 2 = Some true.
Proof.
  apply (set_initializing_shared_once Examples.diamond 0 true 1 2 3
           (mkNode KObject false []) 2 (mkNode KModule false [("shared", 3)])).
  - apply diamond_reachable_1.
  - apply diamond_reachable_2.
  - lia.
  - vm_compute. apply list_elem_of_here.
  - vm_compute. apply list_elem_of_here.
  - reflexivity.
  - reflexivity.
  - apply diamond_reachable_2.
  - reflexivity.
  - reflexivity.
Defined.

Lemma lazy_init_resets_flag_witness :
  let run := lazy_init Examples.always Examples.raises (VRef 0)
               Examples.no_args Examples.diamond in
  lazy_init_module Examples.always Examples.diamond (VRef 0) = Ok 0 ∧
  run.2 = Raise "ValueError" ∧
  reachable run.1 0 3 ∧
  run.1 !! 3 = Some (mkNode KObject false []) ∧
  initializing (mkNode KObject false []) = false.
Proof.
  set (run := lazy_init _ _ _ _ _).
  assert (reachable run.1 0 3) as Hreach.
  { eapply reach_step; [eapply reach_step; [apply reach_root|]|];
      vm_compute; apply list_elem_of_here. }
  split; [reflexivity|]. split; [reflexivity|].
  split; [exact Hreach|]. split; [reflexivity|].
  apply (lazy_init_resets_flag Examples.always Examples.raises (VRef 0)
           Examples.no_args Examples.diamond 0 run.1 run.2 3
           (mkNode KObject false [])).
  - reflexivity.
  - reflexivity.
  - exact Hreach.
  - reflexivity.
  - reflexivity.
Defined.

(** C2 as the spec words it fails: the wrapped call returns 7 and
    [lazy_init] returns the module it was given. *)
Lemma lazy_init_returns_call_value_counterexample :
  let h1 := _set_initializing Examples.diamond 0 true in
  lazy_init_module Examples.always Examples.diamond (VRef 0) = Ok 0 ∧
  Examples.returns7 (VRef 0) Examples.no_args h1 = (h1, Ok (VInt 7)) ∧
  (lazy_init Examples.always Examples.returns7 (VRef 0)
     Examples.no_args Examples.diamond).2 = Ok (VRef 0) ∧
  (lazy_init Examples.always Examples.returns7 (VRef 0)
     Examples.no_args Examples.diamond).2 ≠ Ok (VInt 7).
Proof. repeat split; try reflexivity. vm_compute. discriminate. Qed.

Lemma lazy_init_returns_fn_witness :
  let h1 := _set_initializing Examples.diamond 0 true in
  lazy_init_module Examples.always Examples.diamond (VRef 0) = Ok 0 ∧
  Examples.returns7 (VRef 0) Examples.no_args h1 = (h1, Ok (VInt 7)) ∧
  lazy_init Examples.always Examples.returns7 (VRef 0)
     Examples.no_args Examples.diamond =
    (_set_initializing h1 0 false, Ok (VRef 0)).
Proof.
  split; [reflexivity|]. split; [reflexivity|].
  apply (lazy_init_returns_fn Examples.always Examples.returns7 (VRef 0)
           Examples.no_args Examples.diamond 0 _ (VInt 7)); reflexivity.
Defined.

Example lazy_init_needs_a_module :
  lazy_init Examples.always Examples.returns7 (VInt 3)
    Examples.no_args Examples.diamond = (Examples.diamond, Raise "AssertionError").
Proof. reflexivity. Qed.

Example lazy_init_bound_method :
  (lazy_init Examples.always Examples.returns7 (VMethod 1 "encode")
     Examples.no_args Examples.diamond).2 = Ok (VMethod 1 "encode").
Proof. reflexivity. Qed.

(** ** The functional handle *)

Section functional_facts.
Import FunctionalWrapper.
Context {NNXModule : Type}.
Variable nnx_split : NNXModule → GraphDef * State.
Variable nnx_merge : GraphDef → list State → Outcome NNXModule.
Variable module_call : NNXModule → Args → NNXModule * Outcome Val.

Lemma apply_without_graphdef (handle : Functional (NNXModule := NNXModule))
    states :
  graphdef handle = None →
  apply nnx_merge module_call handle states = Raise "AssertionError".
Proof. unfold apply. by intros ->. Qed.

(** A failed [init] leaves the handle as it was. *)
Lemma init_failure_keeps_handle (handle : Functional (NNXModule := NNXModule))
    rngs handle' e :
  init nnx_split handle rngs = (handle', Raise e) → handle' = handle.
Proof.
  unfold init. intros H.
  destruct (kwargs handle !! "rngs"), rngs;
    repeat (match type of H with
            | context [match ?x with _ => _ end] => destruct x
            end); by simplify_eq.
Qed.

(** C3, as the code has it: on a handle fresh from [functional], [apply]
    fails the [assert] on the graph definition, which is an
    [AssertionError]; once [init] has succeeded the handle holds the graph
    definition of the module that was built, and [apply] merges it with
    the supplied states and invokes the rebuilt module. *)
Theorem functional_apply_protocol cls args kwargs rngs handle' st states :
  init nnx_split (functional cls args kwargs) rngs = (handle', Ok st) →
  apply nnx_merge module_call (functional cls args kwargs) states
    = Raise "AssertionError" ∧
  ∃ built kwargs',
    cls args (kwargs ∪ kwargs') = Ok built ∧
    graphdef handle' = Some (nnx_split built).1 ∧
    st = (nnx_split built).2 ∧
    apply nnx_merge module_call handle' states =
      (rebuilt ← nnx_merge (nnx_split built).1 states;
       (module_call rebuilt (mkArgs [] ∅)).2).
Proof.
  intros Hinit. split; [by apply apply_without_graphdef|].
  unfold init, functional in Hinit. simpl in Hinit.
  set (kwargs' := match rngs with
                  | Some r => {["rngs" := VRngs r]}
                  | None => (∅ : gmap string Val)
                  end) in *.
  assert (∃ built, cls args (kwargs ∪ kwargs') = Ok built ∧
            handle' = mkFunctional cls (Some (nnx_split built).1) args kwargs ∧
            st = (nnx_split built).2) as (built & Hb & -> & ->).
  { destruct (kwargs !! "rngs"), rngs; try done;
      destruct (cls args (kwargs ∪ kwargs')) as [built|e] eqn:Hb; try done;
      destruct (nnx_split built) eqn:Hs; simplify_eq;
      exists built; by rewrite Hs. }
  exists built, kwargs'. repeat split; done.
Qed.

End functional_facts.

(** C3 as the spec words it fails: the error of an [apply] before [init]
    is an [AssertionError], not a [NotInitializedError]. *)
Lemma functional_apply_error_counterexample :
  FunctionalWrapper.apply FunctionalExamples.merge FunctionalExamples.call
    (FunctionalWrapper.functional FunctionalExamples.Linear [VInt 2] ∅)
    [FunctionalExamples.kernel]
  = Raise "AssertionError" ∧
  FunctionalWrapper.apply FunctionalExamples.merge FunctionalExamples.call
    (FunctionalWrapper.functional FunctionalExamples.Linear [VInt 2] ∅)
    [FunctionalExamples.kernel]
  ≠ Raise "NotInitializedError".
Proof. split; [reflexivity|]. vm_compute. discriminate. Qed.

Lemma functional_apply_protocol_witness :
  let handle := FunctionalWrapper.functional FunctionalExamples.Linear [VInt 2] ∅ in
  let run := FunctionalWrapper.init FunctionalExamples.split handle None in
  run.2 = Ok FunctionalExamples.kernel ∧
  FunctionalWrapper.apply FunctionalExamples.merge FunctionalExamples.call
    handle [FunctionalExamples.kernel] = Raise "AssertionError" ∧
  FunctionalWrapper.apply FunctionalExamples.merge FunctionalExamples.call
    run.1 [FunctionalExamples.kernel] = Ok (VInt 1).
Proof.
  intros handle run. split; [reflexivity|].
  destruct (functional_apply_protocol FunctionalExamples.split
              FunctionalExamples.merge FunctionalExamples.call
              FunctionalExamples.Linear [VInt 2] ∅ None run.1
              FunctionalExamples.kernel [FunctionalExamples.kernel])
    as [Hbefore _]; [reflexivity|].
  split; [exact Hbefore|reflexivity].
Defined.

(** ** [ToNNX] *)

Section tonnx_facts.
Import ToNNXWrapper.
Variable variable_type : string → Outcome VariableType.
Variable fold_in : Key → nat → Key.

Local Abbreviation call := (__call__ variable_type fold_in).

Lemma truthy_ne_False v : truthy v = true → py_eq_False v = false.
Proof. destruct v as [|[]|[]| | | | | | | | |]; simpl; done. Qed.

Lemma bundle_truthy (m : gmap string RngStream) name s :
  m !! name = Some s → rngs_truthy (Some m) = true.
Proof.
  intros Hm. simpl. case_bool_decide as He; [|done].
  subst. by rewrite lookup_empty in Hm.
Qed.

(** The request made of the wrapped module in the init branch does not
    depend on how the call ends. *)
Lemma call_init_log self args rngs method :
  _object__state_initializing self = true →
  calls (call self args rngs method) =
    [InitWithOutput (init_rngs (effective_rngs self rngs)) args method].
Proof.
  intros Hi. unfold __call__. rewrite Hi.
  destruct (init_with_output _ _ _ _) as [[out variables]|e]; [|done].
  destruct (tree_map_with_path _ _) as [typed|e]; [|done].
  by destruct (split_updates _ _ _ _) as [self2 r].
Qed.

Lemma call_apply_log self args rngs method variables :
  _object__state_initializing self = false →
  collect_variables self = Ok variables →
  calls (call self args rngs method) =
    [Apply variables args (apply_rngs fold_in (effective_rngs self rngs)) method].
Proof.
  intros Hi Hv. unfold __call__. rewrite Hi, Hv.
  destruct (commit_draws _ _) as [self1 rngs1].
  destruct (linen_apply _ _ _ _ _) as [out|e]; [|done].
  by destruct (split_updates _ _ _ _) as [self2 r].
Qed.

(** C5: in the init branch, a bundle with a "default" stream and no
    "params" stream reaches [init_with_output] with the raw key of
    "default" under "params" and nothing under "default", the other
    streams as they are; a bundle that has a "params" stream is passed on
    unrenamed. *)
Theorem init_call_renames_default self args rngs method m :
  _object__state_initializing self = true →
  effective_rngs self rngs = Some m →
  ∃ _rngs,
    calls (call self args rngs method) = [InitWithOutput _rngs args method] ∧
    (∀ s, m !! "default" = Some s → m !! "params" = None →
       _rngs !! "params" = Some (key s) ∧
       _rngs !! "default" = None ∧
       ∀ name, name ≠ "params" → name ≠ "default" →
         _rngs !! name = key <$> m !! name) ∧
    (is_Some (m !! "params") → _rngs = key <$> m).
Proof.
  intros Hi Hm. exists (init_rngs (Some m)).
  split; [by rewrite call_init_log, Hm|]. split.
  - intros s Hd Hp. unfold init_rngs.
    rewrite (bundle_truthy m "default" s Hd). simpl.
    rewrite !lookup_fmap, Hp, Hd. simpl.
    split; [by rewrite lookup_insert_eq|]. split.
    + by rewrite lookup_insert_ne, lookup_delete_eq.
    + intros name Hn1 Hn2.
      by rewrite lookup_insert_ne, lookup_delete_ne, lookup_fmap.
  - intros [p Hp]. unfold init_rngs.
    rewrite (bundle_truthy m "params" p Hp). simpl.
    by rewrite !lookup_fmap, Hp.
Qed.

(** C9: a missing or falsy per-call bundle is replaced by the bundle
    stored at construction, in the init branch and in the apply branch
    alike; a truthy per-call bundle is the one used. *)
Theorem call_rngs_fallback self args rngs method :
  (rngs_truthy rngs = false →
     (_object__state_initializing self = true →
        calls (call self args rngs method) =
          [InitWithOutput (init_rngs (ToNNXWrapper.rngs self)) args method]) ∧
     (∀ variables,
        _object__state_initializing self = false →
        collect_variables self = Ok variables →
        calls (call self args rngs method) =
          [Apply variables args
             (apply_rngs fold_in (ToNNXWrapper.rngs self)) method])) ∧
  (rngs_truthy rngs = true →
     (_object__state_initializing self = true →
        calls (call self args rngs method) =
          [InitWithOutput (init_rngs rngs) args method]) ∧
     (∀ variables,
        _object__state_initializing self = false →
        collect_variables self = Ok variables →
        calls (call self args rngs method) =
          [Apply variables args (apply_rngs fold_in rngs) method])).
Proof.
  split; intros Ht; (split; [intros Hi|intros variables Hi Hv]).
  - rewrite call_init_log by done. unfold effective_rngs. by rewrite Ht.
  - rewrite (call_apply_log _ _ _ _ variables) by done.
    unfold effective_rngs. by rewrite Ht.
  - rewrite call_init_log by done. unfold effective_rngs. by rewrite Ht.
  - rewrite (call_apply_log _ _ _ _ variables) by done.
    unfold effective_rngs. by rewrite Ht.
Qed.

Lemma write_updates_spec (vt : string → VariableType) updates :
  ∀ self,
    (∀ c v, (c, v) ∈ updates → variable_type c = Ok (vt c)) →
    NoDup updates.*1 →
    ∃ self',
      write_updates variable_type self updates = (self', Ok ()) ∧
      (∀ c v, (c, v) ∈ updates →
         attrs self' !! c = Some (tree_map (VVariable (vt c)) v)) ∧
      (∀ c, c ∉ updates.*1 → attrs self' !! c = attrs self !! c).
Proof.
  induction updates as [|[c v] rest IH]; intros self Hvt Hnd; simpl.
  - exists self. split; [done|]. split; [|done].
    intros c v Hin. by apply elem_of_nil in Hin.
  - rewrite (Hvt c v) by left.
    rewrite fmap_cons in Hnd. apply NoDup_cons in Hnd as [Hc Hnd].
    destruct (IH (_setattr self c (tree_map (VVariable (vt c)) v)))
      as (self' & Hrun & Hin & Hout); [|done|].
    { intros c' v' Hin. apply (Hvt c' v'). by right. }
    exists self'. split; [done|]. split.
    + intros c' v' [Heq|Hrest]%elem_of_cons.
      * injection Heq as -> ->. rewrite (Hout c Hc). simpl.
        by rewrite lookup_insert_eq.
      * by apply Hin.
    + intros c' Hc'.
      apply not_elem_of_cons in Hc' as [Hne Hc'].
      rewrite (Hout c' Hc'). simpl. by rewrite lookup_insert_ne.
Qed.

(** C6: in a call on the apply branch with a truthy [mutable] keyword, the
    pair returned by the wrapped [apply] is split; every collection of the
    updates is stored, re-typed, as the attribute of that name, and the
    call returns the output component alone. *)
Theorem mutable_apply_stores_updates
    self args rngs method mv variables out updates
    (vt : string → VariableType) c v :
  _object__state_initializing self = false →
  kw args !! "mutable" = Some mv → truthy mv = true →
  collect_variables self = Ok variables →
  linen_apply (module self) variables args
    (apply_rngs fold_in (effective_rngs self rngs)) method
    = Ok (VTuple [out; VDict updates]) →
  (∀ c', c' ∈ dom updates → variable_type c' = Ok (vt c')) →
  updates !! c = Some v →
  result (call self args rngs method) = Ok out ∧
  attrs (self' (call self args rngs method)) !! c
    = Some (tree_map (VVariable (vt c)) v).
Proof.
  intros Hi Hmv Ht Hv Happly Hvt Hc.
  unfold __call__. rewrite Hi, Hv.
  destruct (commit_draws _ _) as [self1 rngs1].
  rewrite Happly. unfold split_updates.
  rewrite Hmv. simpl. rewrite (truthy_ne_False mv Ht). simpl.
  destruct (write_updates_spec vt (map_to_list updates) self1)
    as (self2 & Hrun & Hin & _).
  { intros c' v' Hin. apply Hvt.
    apply elem_of_map_to_list in Hin. by apply elem_of_dom. }
  { apply NoDup_fst_map_to_list. }
  rewrite Hrun. simpl. split; [done|].
  apply Hin. by apply elem_of_map_to_list.
Qed.

End tonnx_facts.

Example tonnx_ready_state :
  ToNNXWrapper.linen_collections ToNNXExamples.ready = {[ "params"; "batch_stats" ]} ∧
  ToNNXWrapper.attrs ToNNXExamples.ready !! "params"
    = Some (VDict {[ "scale" := VVariable "Param" (VInt 42) ]}) ∧
  ToNNXWrapper.attrs ToNNXExamples.ready !! "batch_stats"
    = Some (VDict {[ "mean" := VVariable "BatchStat" (VInt 0) ]}).
Proof. vm_compute. done. Qed.

Example tonnx_plain_call :
  ToNNXWrapper.result
    (ToNNXWrapper.__call__ ToNNXExamples.variable_type ToNNXExamples.fold_in
       ToNNXExamples.ready ToNNXExamples.x None VNone) = Ok (VInt 1).
Proof. vm_compute. reflexivity. Qed.

Lemma init_call_renames_default_witness :
  ∃ _rngs,
    ToNNXWrapper.calls
      (ToNNXWrapper.__call__ ToNNXExamples.variable_type ToNNXExamples.fold_in
         (ToNNXExamples.with_flag true ToNNXExamples.fresh)
         ToNNXExamples.x None VNone)
      = [ToNNXWrapper.InitWithOutput _rngs ToNNXExamples.x VNone] ∧
    _rngs !! "params" = Some 42%Z ∧ _rngs !! "default" = None.
Proof.
  destruct (init_call_renames_default
              ToNNXExamples.variable_type ToNNXExamples.fold_in
              (ToNNXExamples.with_flag true ToNNXExamples.fresh)
              ToNNXExamples.x None VNone ToNNXExamples.stored_bundle)
    as (_rngs & Hcalls & Hrename & _); [reflexivity|reflexivity|].
  exists _rngs. split; [exact Hcalls|].
  destruct (Hrename (mkStream 42%Z 0)) as (Hp & Hd & _);
    [reflexivity|reflexivity|].
  split; [exact Hp|exact Hd].
Defined.

Example init_call_keeps_params :
  ToNNXWrapper.calls
    (ToNNXWrapper.__call__ ToNNXExamples.variable_type ToNNXExamples.fold_in
       (ToNNXExamples.with_flag true ToNNXExamples.fresh)
       ToNNXExamples.x (Some ToNNXExamples.call_bundle) VNone)
  = [ToNNXWrapper.InitWithOutput {[ "params" := 7%Z; "default" := 8%Z ]}
       ToNNXExamples.x VNone].
Proof. vm_compute. reflexivity. Qed.

Lemma call_rngs_fallback_witness :
  ToNNXWrapper.calls
    (ToNNXWrapper.__call__ ToNNXExamples.variable_type ToNNXExamples.fold_in
       (ToNNXExamples.with_flag true ToNNXExamples.fresh)
       ToNNXExamples.x (Some ∅) VNone)
  = [ToNNXWrapper.InitWithOutput
       (ToNNXWrapper.init_rngs (Some ToNNXExamples.stored_bundle))
       ToNNXExamples.x VNone] ∧
  ToNNXWrapper.calls
    (ToNNXWrapper.__call__ ToNNXExamples.variable_type ToNNXExamples.fold_in
       ToNNXExamples.ready ToNNXExamples.x (Some ToNNXExamples.call_bundle) VNone)
  = [ToNNXWrapper.Apply
       {[ "params" := VDict {[ "scale" := VInt 42 ]};
          "batch_stats" := VDict {[ "mean" := VInt 0 ]} ]}
       ToNNXExamples.x
       (ToNNXWrapper.apply_rngs ToNNXExamples.fold_in
          (Some ToNNXExamples.call_bundle)) VNone].
Proof.
  split.
  - destruct (call_rngs_fallback
                ToNNXExamples.variable_type ToNNXExamples.fold_in
                (ToNNXExamples.with_flag true ToNNXExamples.fresh)
                ToNNXExamples.x (Some ∅) VNone) as [Hfalsy _].
    destruct (Hfalsy eq_refl) as [Hinit _]. exact (Hinit eq_refl).
  - destruct (call_rngs_fallback
                ToNNXExamples.variable_type ToNNXExamples.fold_in
                ToNNXExamples.ready
                ToNNXExamples.x (Some ToNNXExamples.call_bundle) VNone)
      as [_ Htruthy].
    destruct (Htruthy eq_refl) as [_ Happly].
    apply Happly; [reflexivity|]. vm_compute. reflexivity.
Defined.

Lemma mutable_apply_stores_updates_witness :
  let r := ToNNXWrapper.__call__ ToNNXExamples.variable_type
             ToNNXExamples.fold_in ToNNXExamples.ready
             ToNNXExamples.x_mutable None VNone in
  ToNNXWrapper.attrs ToNNXExamples.ready !! "batch_stats"
    = Some (VDict {[ "mean" := VVariable "BatchStat" (VInt 0) ]}) ∧
  ToNNXWrapper.result r = Ok (VInt 1) ∧
  ToNNXWrapper.attrs (ToNNXWrapper.self' r) !! "batch_stats"
    = Some (VDict {[ "mean" := VVariable "BatchStat" (VInt 5) ]}).
Proof.
  intros r. split; [vm_compute; reflexivity|].
  destruct (mutable_apply_stores_updates
              ToNNXExamples.variable_type ToNNXExamples.fold_in
              ToNNXExamples.ready ToNNXExamples.x_mutable None VNone
              (VTuple [VStr "batch_stats"])
              {[ "params" := VDict {[ "scale" := VInt 42 ]};
                 "batch_stats" := VDict {[ "mean" := VInt 0 ]} ]}
              (VInt 1)
              {[ "batch_stats" := VDict {[ "mean" := VInt 5 ]} ]}
              ToNNXExamples.vtype "batch_stats"
              (VDict {[ "mean" := VInt 5 ]})) as [Hres Hattr].
  - reflexivity.
  - reflexivity.
  - reflexivity.
  - vm_compute. reflexivity.
  - reflexivity.
  - intros c' Hc'. apply elem_of_dom in Hc' as [v' Hv'].
    apply lookup_singleton_Some in Hv' as [<- _]. reflexivity.
  - reflexivity.
  - split; [exact Hres|]. subst r. rewrite Hattr. vm_compute. reflexivity.
Defined.

(** ** [ToLinen] *)

Section variable_store.
Import ToLinenWrapper.
Implicit Types (vs : gmap string (gmap string Val))
               (ws : list (string * string * Val)).

Lemma put_stored vs w col name :
  stored (put vs w) col name =
    if decide (w.1 = (col, name)) then Some w.2 else stored vs col name.
Proof.
  destruct w as [[c k] v]. unfold stored, put. simpl.
  destruct (decide (c = col)) as [->|Hc].
  - rewrite lookup_insert_eq. simpl.
    destruct (decide (k = name)) as [->|Hk].
    + rewrite lookup_insert_eq. by rewrite decide_True.
    + rewrite lookup_insert_ne by done.
      rewrite decide_False by congruence.
      by destruct (vs !! col).
  - rewrite lookup_insert_ne by done. by rewrite decide_False by congruence.
Qed.

Lemma put_collections vs w col :
  is_Some (put vs w !! col) ↔ is_Some (vs !! col) ∨ w.1.1 = col.
Proof.
  destruct w as [[c k] v]. unfold put. simpl.
  destruct (decide (c = col)) as [->|Hc].
  - rewrite lookup_insert_eq. split; [by right|by eexists].
  - rewrite lookup_insert_ne by done. split; [by left|by intros [?|?]].
Qed.

Lemma last_write_from ws col name (init : option Val) :
  foldl (λ acc w, if decide (w.1 = (col, name)) then Some w.2 else acc)
        init ws =
    match last_write ws col name with
    | Some v => Some v
    | None => init
    end.
Proof.
  unfold last_write. revert init.
  induction ws as [|w ws IH]; intros init; simpl; [done|].
  rewrite IH, (IH (if decide _ then _ else None)).
  destruct (foldl _ None ws); [done|]. by case_decide.
Qed.

Lemma foldl_put_stored ws : ∀ vs col name,
  stored (foldl put vs ws) col name =
    match last_write ws col name with
    | Some v => Some v
    | None => stored vs col name
    end.
Proof.
  induction ws as [|w ws IH]; intros vs col name; [done|].
  cbn [foldl]. rewrite IH, put_stored.
  unfold last_write at 2. cbn [foldl]. rewrite last_write_from.
  destruct (last_write ws col name); [done|]. by case_decide.
Qed.

Lemma foldl_put_collections ws : ∀ vs col,
  is_Some (foldl put vs ws !! col) ↔
    is_Some (vs !! col) ∨ ∃ w, w ∈ ws ∧ w.1.1 = col.
Proof.
  induction ws as [|w ws IH]; intros vs col; cbn [foldl].
  - split; [by left|]. intros [?|(w & Hw & _)]; [done|].
    by apply elem_of_nil in Hw.
  - rewrite IH, put_collections. split.
    + intros [[?|?]|(w' & Hw' & ?)].
      * by left.
      * right. exists w. split; [left|done].
      * right. exists w'. split; [by right|done].
    + intros [?|(w' & Hw' & ?)]; [by left; left|].
      apply elem_of_cons in Hw' as [->|Hw']; [by left; right|].
      right. by exists w'.
Qed.

Lemma store_ext vs1 vs2 :
  (∀ col, is_Some (vs1 !! col) ↔ is_Some (vs2 !! col)) →
  (∀ col name, stored vs1 col name = stored vs2 col name) →
  vs1 = vs2.
Proof.
  intros Hcols Hvals. apply map_eq. intros col.
  specialize (Hcols col). pose proof (Hvals col) as Hcol.
  unfold stored in Hcol.
  destruct (vs1 !! col) as [c1|], (vs2 !! col) as [c2|]; simpl in *.
  - f_equal. by apply map_eq.
  - destruct Hcols as [Hc _]. by destruct Hc.
  - destruct Hcols as [_ Hc]. by destruct Hc.
  - done.
Qed.

(** Storing the same writes a second time changes nothing. *)
Lemma foldl_put_idemp ws vs :
  foldl put (foldl put vs ws) ws = foldl put vs ws.
Proof.
  apply store_ext.
  - intros col. rewrite (foldl_put_collections ws (foldl put vs ws)).
    rewrite foldl_put_collections. tauto.
  - intros col name. rewrite (foldl_put_stored ws (foldl put vs ws)).
    rewrite foldl_put_stored. by destruct (last_write ws col name).
Qed.

End variable_store.

Section tolinen_facts.
Import ToLinenWrapper.
Context {NNXModule : Type}.
Variable nnx_split : NNXModule → GraphDef * State.
Variable nnx_split_types :
  NNXModule → list VariableType → Outcome (list State).
Variable nnx_merge : Val → State → Outcome NNXModule.
Variable State_merge : list State → State.
Variable reseed : NNXModule → gmap string Key → NNXModule.
Variable module_call : NNXModule → Args → NNXModule * Outcome Val.
Variable sort_variable_types : gset VariableType → list VariableType.
Variable variable_type_name : VariableType → string.
Variable fold_in : Key → nat → Key.

Local Abbreviation update :=
  (update_variables nnx_split nnx_split_types sort_variable_types
     variable_type_name).
Local Abbreviation writes :=
  (captured_writes nnx_split nnx_split_types sort_variable_types
     variable_type_name).
Local Abbreviation outcome :=
  (capture_outcome nnx_split nnx_split_types sort_variable_types).
Local Abbreviation call :=
  (__call__ nnx_split nnx_split_types nnx_merge State_merge reseed
     module_call sort_variable_types variable_type_name fold_in).

Lemma set_variables_id sc : set_variables sc (variables sc) = sc.
Proof. by destruct sc. Qed.

Lemma put_loop_writes col (l : list (string * Val)) : ∀ sc,
  foldl (λ sc3 '(k, v), put_variable sc3 col k v) sc l =
    set_variables sc
      (foldl put (variables sc) ((λ kv, (col, kv.1, kv.2)) <$> l)).
Proof.
  induction l as [|[k v] l IH]; intros sc; simpl.
  - by rewrite set_variables_id.
  - by rewrite IH.
Qed.

Lemma type_loop_writes sc (l : list (VariableType * State)) : ∀ sc2,
  is_mutable_collection sc2 = is_mutable_collection sc →
  foldl (λ sc2 '(typ, state),
           let collection := variable_type_name typ in
           if is_mutable_collection sc2 collection then
             foldl (λ sc3 '(k, v), put_variable sc3 collection k v)
                   sc2 (map_to_list (raw_mapping state))
           else sc2) sc2 l =
    set_variables sc2
      (foldl put (variables sc2)
         (l ≫= λ '(typ, state), type_writes variable_type_name sc typ state)).
Proof.
  induction l as [|[typ state] l IH]; intros sc2 Hmut.
  - simpl. by rewrite set_variables_id.
  - cbn [foldl]. rewrite bind_cons, foldl_app. unfold type_writes at 1.
    rewrite Hmut. simpl.
    destruct (is_mutable_collection sc (variable_type_name typ)).
    + rewrite put_loop_writes, IH by done. done.
    + by rewrite IH.
Qed.

(** A run of [update_variables] is the list of its writes. *)
Lemma update_variables_writes module sc :
  update module sc =
    (set_variables sc (foldl put (variables sc) (writes module sc)),
     outcome module).
Proof.
  unfold update_variables, captured_writes, capture_outcome.
  destruct (nnx_split module) as [gdef state].
  set (sc1 := if is_mutable_collection sc "nnx" then _ else sc).
  assert (sc1 = set_variables sc
            (foldl put (variables sc)
               (if is_mutable_collection sc "nnx"
                then [("nnx", "graphdef", VGraphDef gdef)] else []))) as Hsc1.
  { subst sc1. destruct (is_mutable_collection sc "nnx"); [done|].
    by rewrite set_variables_id. }
  assert (is_mutable_collection sc1 = is_mutable_collection sc) as Hmut
    by by rewrite Hsc1.
  destruct (state_types _) as [ts|e]; simpl.
  - destruct (nnx_split_types _ _) as [state_by_types|e]; simpl.
    + rewrite (type_loop_writes sc) by done.
      rewrite foldl_app. by rewrite Hsc1.
    + by rewrite app_nil_r, Hsc1.
  - by rewrite app_nil_r, Hsc1.
Qed.

(** C7: a second run of [update_variables] on the same module stores the
    same names with the same values as the first (the walk over the
    variable types is a function of the module alone), ends the same way
    as the first, and leaves every collection as the first run left it. *)
Theorem update_variables_stable module sc :
  let run1 :=
    update_variables nnx_split nnx_split_types sort_variable_types
      variable_type_name module sc in
  let run2 :=
    update_variables nnx_split nnx_split_types sort_variable_types
      variable_type_name module run1.1 in
  captured_writes nnx_split nnx_split_types sort_variable_types
    variable_type_name module run1.1
  = captured_writes nnx_split nnx_split_types sort_variable_types
      variable_type_name module sc ∧
  run2.2 = run1.2 ∧
  dom (variables run2.1) = dom (variables run1.1) ∧
  variables run2.1 = variables run1.1.
Proof.
  intros run1 run2. subst run2 run1.
  rewrite (update_variables_writes module sc). simpl.
  assert (writes module
            (set_variables sc (foldl put (variables sc) (writes module sc)))
          = writes module sc) as Hw by done.
  rewrite update_variables_writes. simpl. rewrite Hw.
  rewrite foldl_put_idemp. done.
Qed.

(** C4: on the apply path, a context whose "nnx" collection holds no
    graph definition makes the call fail with [MissingGraphDefError];
    nothing is merged and the context is left as it was. *)
Theorem apply_without_graphdef_rejected (self : ToLinen) call_args sc :
  is_initializing sc = false →
  stored (variables sc) "nnx" "graphdef" = None →
  call self call_args sc = mkCallResult sc [] (Raise "MissingGraphDefError").
Proof.
  intros Hi Hg. unfold __call__, get_variable. rewrite Hi.
  unfold stored in Hg. by rewrite Hg.
Qed.

Lemma stored_states_delete sc :
  stored_states sc ≡ₚ
    (λ kv, mkState kv.2) <$> map_to_list (delete "nnx" (variables sc)).
Proof.
  unfold stored_states. apply fmap_Permutation.
  assert (∀ l : list (string * gmap string Val),
            (∀ kv, kv ∈ l → kv.1 ≠ "nnx") →
            filter (λ kv, kv.1 ≠ "nnx") l = l) as Hall.
  { induction l as [|kv l IH]; intros Hl; [done|].
    rewrite filter_cons_True by (apply Hl; left).
    f_equal. apply IH. intros kv' Hkv'. apply Hl. by right. }
  assert (∀ kv, kv ∈ map_to_list (delete "nnx" (variables sc)) →
                kv.1 ≠ "nnx") as Hne.
  { intros [k c] Hkc. apply elem_of_map_to_list in Hkc. simpl.
    intros ->. by rewrite lookup_delete_eq in Hkc. }
  destruct (variables sc !! "nnx") as [c|] eqn:Hnnx.
  - rewrite <-(map_to_list_delete _ _ _ Hnnx).
    rewrite filter_cons_False by (simpl; tauto).
    by rewrite Hall.
  - rewrite delete_id in Hne |- * by done. by rewrite Hall.
Qed.

(** C10: on the apply path the state handed to [nnx.merge] is built from
    every stored collection except "nnx", whatever its name, each taken
    once; it is the empty state exactly when there is no such
    collection. *)
Theorem apply_merges_all_but_nnx (self : ToLinen) call_args sc gdef :
  is_initializing sc = false →
  stored (variables sc) "nnx" "graphdef" = Some gdef →
  ∃ states,
    merges (call self call_args sc) =
      [(gdef, match states with
              | [] => mkState ∅
              | _ => State_merge states
              end)] ∧
    states ≡ₚ (λ kv, mkState kv.2)
                <$> map_to_list (delete "nnx" (variables sc)) ∧
    (∀ col c, col ≠ "nnx" → variables sc !! col = Some c →
       mkState c ∈ states) ∧
    (∀ s, s ∈ states →
       ∃ col, col ≠ "nnx" ∧ variables sc !! col = Some (raw_mapping s)) ∧
    (states = [] ↔ ∀ col, col ≠ "nnx" → variables sc !! col = None).
Proof.
  intros Hi Hg. exists (stored_states sc).
  pose proof (stored_states_delete sc) as Hperm.
  split; [|split; [done|]].
  - unfold __call__, get_variable. rewrite Hi.
    unfold stored in Hg. rewrite Hg.
    replace (match stored_states sc with
             | [] => mkState ∅
             | _ => State_merge (stored_states sc)
             end) with (nnx_state State_merge sc)
      by (unfold nnx_state; by destruct (stored_states sc)).
    destruct (nnx_merge _ _) as [module|e]; [|done].
    destruct (linen_rngs_dict _ _) as [[d sc1]|e]; [|done].
    destruct (module_call _ _) as [module2 [out|e]]; [|done].
    by destruct (update_variables _ _ _ _ _ _) as [sc2 r].
  - split; [|split].
    + intros col c Hne Hc. rewrite Hperm.
      apply list_elem_of_fmap. exists (col, c). split; [done|].
      apply elem_of_map_to_list. by rewrite lookup_delete_ne.
    + intros s Hs. rewrite Hperm in Hs.
      apply list_elem_of_fmap in Hs as ([col c] & -> & Hin).
      apply elem_of_map_to_list in Hin. exists col. simpl.
      destruct (decide (col = "nnx")) as [->|Hne].
      * by rewrite lookup_delete_eq in Hin.
      * by rewrite lookup_delete_ne in Hin.
    + split.
      * intros Hnil col Hne.
        destruct (variables sc !! col) as [c|] eqn:Hc; [|done].
        assert (mkState c ∈ stored_states sc) as Hin.
        { rewrite Hperm. apply list_elem_of_fmap. exists (col, c).
          split; [done|]. apply elem_of_map_to_list.
          by rewrite lookup_delete_ne. }
        rewrite Hnil in Hin. by apply elem_of_nil in Hin.
      * intros Hnone. apply Permutation_nil_r. rewrite Hperm.
        assert (delete "nnx" (variables sc) = ∅) as ->.
        { apply map_eq. intros col. rewrite lookup_empty.
          destruct (decide (col = "nnx")) as [->|Hne].
          - by rewrite lookup_delete_eq.
          - rewrite lookup_delete_ne by done. by apply Hnone. }
        by rewrite map_to_list_empty.
Qed.

End tolinen_facts.

Example tolinen_init_variables :
  ToLinenWrapper.variables
    (ToLinenWrapper.scope' (ToLinenExamples.run ToLinenExamples.init_scope))
  = {[ "nnx" := {[ "graphdef" := VGraphDef (mkGraphDef 0) ]};
       "params" := {[ "scale" := VVariableState "Param" (VInt 1) ]};
       "batch_stats" := {[ "mean" := VVariableState "BatchStat" (VInt 0) ]} ]}.
Proof. vm_compute. reflexivity. Qed.

Example tolinen_apply_result :
  ToLinenWrapper.result (ToLinenExamples.run ToLinenExamples.apply_scope)
  = Ok (VInt 2).
Proof. vm_compute. reflexivity. Qed.

Lemma apply_without_graphdef_rejected_witness :
  ToLinenWrapper.is_initializing ToLinenExamples.empty_apply_scope = false ∧
  ToLinenExamples.run ToLinenExamples.empty_apply_scope =
    ToLinenWrapper.mkCallResult ToLinenExamples.empty_apply_scope []
      (Raise "MissingGraphDefError").
Proof.
  split; [reflexivity|].
  apply (apply_without_graphdef_rejected
           ToLinenExamples.split ToLinenExamples.split_types
           ToLinenExamples.merge ToLinenExamples.State_merge
           ToLinenExamples.reseed ToLinenExamples.call
           ToLinenExamples.sort_variable_types
           ToLinenExamples.variable_type_name ToLinenExamples.fold_in
           ToLinenExamples.layer ToLinenExamples.x
           ToLinenExamples.empty_apply_scope); reflexivity.
Defined.

Lemma apply_merges_all_but_nnx_witness :
  ∃ states,
    ToLinenWrapper.merges (ToLinenExamples.run ToLinenExamples.apply_scope) =
      [(VGraphDef (mkGraphDef 0),
        match states with
        | [] => mkState ∅
        | _ => ToLinenExamples.State_merge states
        end)] ∧
    mkState {[ "scale" := VVariableState "Param" (VInt 1) ]} ∈ states ∧
    mkState {[ "mean" := VVariableState "BatchStat" (VInt 0) ]} ∈ states ∧
    length states = 2.
Proof.
  destruct (apply_merges_all_but_nnx
              ToLinenExamples.split ToLinenExamples.split_types
              ToLinenExamples.merge ToLinenExamples.State_merge
              ToLinenExamples.reseed ToLinenExamples.call
              ToLinenExamples.sort_variable_types
              ToLinenExamples.variable_type_name ToLinenExamples.fold_in
              ToLinenExamples.layer ToLinenExamples.x
              ToLinenExamples.apply_scope (VGraphDef (mkGraphDef 0)))
    as (states & Hmerges & Hperm & Hin & _); [reflexivity|reflexivity|].
  exists states. split; [exact Hmerges|].
  split; [|split].
  - apply (Hin "params"); [done|]. vm_compute. reflexivity.
  - apply (Hin "batch_stats"); [done|]. vm_compute. reflexivity.
  - rewrite Hperm. vm_compute. reflexivity.
Defined.

Example update_variables_twice :
  let update := ToLinenWrapper.update_variables ToLinenExamples.split
                  ToLinenExamples.split_types
                  ToLinenExamples.sort_variable_types
                  ToLinenExamples.variable_type_name in
  let m : gmap string Val :=
    {[ "scale" := VVariableState "Param" (VInt 1);
       "mean" := VVariableState "BatchStat" (VInt 9) ]} in
  let run1 := update m ToLinenExamples.apply_scope in
  ToLinenWrapper.variables run1.1
    = {[ "nnx" := {[ "graphdef" := VGraphDef (mkGraphDef 0) ]};
         "params" := {[ "scale" := VVariableState "Param" (VInt 1) ]};
         "batch_stats" := {[ "mean" := VVariableState "BatchStat" (VInt 9) ]} ]} ∧
  update m run1.1 = run1.
Proof. vm_compute. done. Qed.

(** * Further properties of the bridge *)

(** ** Induction over trees of values *)

Section tree_induction.

Lemma Val_size_tuple v vs : v ∈ vs → Val_size v < Val_size (VTuple vs).
Proof.
  simpl. induction 1 as [v vs|v w vs _ IH]; simpl; lia.
Qed.

Lemma Val_size_dict (m : gmap string Val) k v :
  m !! k = Some v → Val_size v < Val_size (VDict m).
Proof.
  intros Hk. simpl.
  rewrite (map_fold_delete_L _ _ k v m); [lia| |done].
  intros. lia.
Qed.

Lemma Val_tree_ind (P : Val → Prop) :
  P VNone →
  (∀ vs, Forall P vs → P (VTuple vs)) →
  (∀ m : gmap string Val, map_Forall (λ _, P) m → P (VDict m)) →
  (∀ t v, P v → P (VVariableState t v)) →
  (∀ v, tree_leaf v = true → P v) →
  ∀ v, P v.
Proof.
  intros Hnone Htuple Hdict Hstate Hleaf v.
  remember (Val_size v) as n eqn:Hn. revert v Hn.
  induction (lt_wf n) as [n _ IH]. intros v ->.
  destruct v; try (by apply Hleaf).
  - done.
  - apply Htuple. apply Forall_forall. intros x Hx.
    eapply IH; [|done]. by apply Val_size_tuple.
  - apply Hdict. intros k x Hk.
    eapply IH; [|done]. by eapply Val_size_dict.
  - apply Hstate. eapply IH; [|done]. simpl. lia.
Qed.

End tree_induction.

(** ** Traversals that can raise *)

Section traversals.

Lemma tree_mapM_tuple f vs :
  tree_mapM f (VTuple vs) =
    VTuple <$> foldr (λ x acc, y ← tree_mapM f x; ys ← acc; Ok (y :: ys))
                     (Ok []) vs.
Proof. done. Qed.

Lemma tree_mapM_dict f (m : gmap string Val) :
  tree_mapM f (VDict m) =
    VDict <$> map_fold (λ k x acc, y ← tree_mapM f x; ys ← acc;
                                    Ok (<[k := y]> ys)) (Ok ∅) m.
Proof. done. Qed.

Lemma tree_mapM_leaf f v : tree_leaf v = true → tree_mapM f v = f v.
Proof. by destruct v. Qed.




(** When every step that raises raises [err], so does the traversal. *)
Lemma foldr_traverse_error (F : Val → Outcome Val) (err : Exception) xs :
  Forall (λ x, ∀ e, F x = Raise e → e = err) xs →
  ∀ e, foldr (λ x acc, y ← F x; ys ← acc; Ok (y :: ys)) (Ok []) xs = Raise e →
       e = err.
Proof.
  induction 1 as [|x xs Hx _ IH]; simpl; intros e He; [done|].
  destruct (F x) as [y|e'] eqn:HF; simpl in He.
  - destruct (foldr _ _ xs) as [ys|e'']; simpl in He; [done|].
    apply IH. congruence.
  - apply Hx. congruence.
Qed.

Lemma map_fold_traverse_error (F : Val → Outcome Val) (err : Exception)
    (m : gmap string Val) :
  map_Forall (λ _ x, ∀ e, F x = Raise e → e = err) m →
  ∀ e, map_fold (λ k x acc, y ← F x; ys ← acc; Ok (<[k := y]> ys))
                (Ok (∅ : gmap string Val)) m = Raise e →
       e = err.
Proof.
  apply (map_fold_weak_ind
           (λ r m, map_Forall (λ _ x, ∀ e, F x = Raise e → e = err) m →
                   ∀ e, r = Raise e → e = err)).
  - done.
  - clear m. intros i x m r Hi IH Hall e He.
    apply map_Forall_insert in Hall as [Hx Hm]; [|done].
    destruct (F x) as [y|e'] eqn:HF; simpl in He.
    + destruct r as [ys|e'']; simpl in He; [done|].
      apply IH; [done|congruence].
    + apply Hx. congruence.
Qed.



(** Reading the values of a tree fails in one way only. *)
Lemma tree_values_error v e :
  tree_mapM value_of v = Raise e → e = "AttributeError".
Proof.
  revert e.
  induction v as [|vs IH|m IH|t v IH|v Hv] using Val_tree_ind; intros e He.
  - done.
  - rewrite tree_mapM_tuple in He.
    destruct (foldr _ _ vs) as [ys|e'] eqn:Hfold; simpl in He; [done|].
    injection He as <-.
    by eapply (foldr_traverse_error (tree_mapM value_of)).
  - rewrite tree_mapM_dict in He.
    destruct (map_fold _ _ m) as [ys|e'] eqn:Hfold; simpl in He; [done|].
    injection He as <-.
    by eapply (map_fold_traverse_error (tree_mapM value_of)).
  - simpl in He. destruct (tree_mapM value_of v) as [y|e'] eqn:Hv;
      simpl in He; [done|]. injection He as <-. by apply IH.
  - rewrite tree_mapM_leaf in He by done.
    destruct v; simpl in He; congruence.
Qed.

End traversals.

(** ** The toggle: what it leaves alone, and how toggles compose *)

Section toggle_frame.
Implicit Types (h : gmap oid Node) (o root : oid) (b : bool).

(** X1: [_set_initializing] writes nothing outside what the root owns:
    an object that is not reachable from the root keeps its cell, flag
    included. *)
Theorem set_initializing_unreachable_untouched h root b o :
  ¬ reachable h root o →
  _set_initializing h root b !! o = h !! o.
Proof.
  intros Hun. rewrite set_initializing_lookup.
  rewrite decide_False; [done|].
  intros Hin. by apply Hun, iter_graph_sound.
Qed.

(** X2: [_set_initializing] changes flags and nothing else: every cell
    keeps its class and its ownership edges, no cell appears or
    disappears, and a cell that is not an [Object] is left as it is. *)
Theorem set_initializing_keeps_structure h root b o n :
  h !! o = Some n →
  ∃ n', _set_initializing h root b !! o = Some n' ∧
        kind n' = kind n ∧ node_dict n' = node_dict n ∧
        (is_Object n = false → n' = n) ∧
        dom (_set_initializing h root b) = dom h.
Proof.
  intros Ho.
  assert (dom (_set_initializing h root b) = dom h) as Hdom.
  { apply set_eq. intros y. rewrite !elem_of_dom, set_initializing_lookup.
    case_decide; [|done]. by rewrite fmap_is_Some. }
  rewrite set_initializing_lookup, Ho.
  case_decide; simpl.
  - exists (set_node b n). split; [done|].
    unfold set_node. destruct (is_Object n); by repeat split.
  - exists n. by repeat split.
Qed.

Lemma visit_ext h h' :
  (∀ y, children h y = children h' y) →
  ∀ fuel x vis, visit fuel h x vis = visit fuel h' x vis.
Proof.
  intros Hch. induction fuel as [|f IH]; intros x vis; simpl; [done|].
  case_bool_decide; [done|]. rewrite <-Hch.
  generalize (x :: vis). induction (children h x) as [|c cs IHcs];
    intros acc; simpl; [done|]. by rewrite IH, IHcs.
Qed.

Lemma set_initializing_size h root b :
  size (_set_initializing h root b) = size h.
Proof.
  rewrite <-!size_dom. f_equal.
  apply set_eq. intros y. rewrite !elem_of_dom, set_initializing_lookup.
  case_decide; [|done]. by rewrite fmap_is_Some.
Qed.

Lemma iter_graph_set_initializing h root b r :
  iter_graph (_set_initializing h root b) r = iter_graph h r.
Proof.
  unfold iter_graph. rewrite set_initializing_size. f_equal.
  apply visit_ext. intros y. apply set_initializing_children.
Qed.

Lemma set_node_twice b1 b2 n : set_node b2 (set_node b1 n) = set_node b2 n.
Proof. unfold set_node, is_Object. by destruct n as [[] ? ?]. Qed.

(** X3: toggles over the same root compose to the last one: setting the
    flags to [b1] and then to [b2] is setting them to [b2]. *)
Theorem set_initializing_last_wins h root b1 b2 :
  _set_initializing (_set_initializing h root b1) root b2 =
  _set_initializing h root b2.
Proof.
  apply map_eq. intros y.
  rewrite (set_initializing_lookup (_set_initializing h root b1)).
  rewrite iter_graph_set_initializing, !set_initializing_lookup.
  case_decide; [|done].
  destruct (h !! y) as [n|]; simpl; [|done]. by rewrite set_node_twice.
Qed.

Lemma set_initializing_clean h root :
  (∀ o n, reachable h root o → h !! o = Some n → is_Object n = true →
          initializing n = false) →
  _set_initializing h root false = h.
Proof.
  intros Hclean. apply map_eq. intros y. rewrite set_initializing_lookup.
  case_decide as Hy; [|done].
  destruct (h !! y) as [n|] eqn:Hn; simpl; [|done]. f_equal.
  unfold set_node. destruct (is_Object n) eqn:Hobj; [|done].
  rewrite <-(Hclean y n (iter_graph_sound _ _ _ Hy) Hn Hobj).
  by destruct n.
Qed.

End toggle_frame.

(** ** [lazy_init]: errors and the state around the call *)

Section lazy_init_more.
Variable callable : Val → bool.
Variable invoke : Val → Args → gmap oid Node → gmap oid Node * Outcome Val.

(** X4: an exception of the wrapped call leaves [lazy_init] unchanged,
    after the flags have been reset in the store the call left behind. *)
Theorem lazy_init_propagates_exception fn args h module h2 e :
  lazy_init_module callable h fn = Ok module →
  invoke fn args (_set_initializing h module true) = (h2, Raise e) →
  lazy_init callable invoke fn args h =
    (_set_initializing h2 module false, Raise e).
Proof.
  intros Hm Hcall. rewrite (lazy_init_unfold _ _ _ _ _ _ Hm).
  by rewrite Hcall.
Qed.

(** X5: a [fn] that is neither a callable module nor a bound method of a
    module is refused with an [AssertionError] before anything happens:
    the store is returned as it was. *)
Theorem lazy_init_rejects_other_values fn args h :
  ¬ (∃ o, fn = VRef o ∧ isinstance_Module h fn = true ∧ callable fn = true) →
  ¬ (∃ o name, fn = VMethod o name ∧ isinstance_Module h (VRef o) = true) →
  lazy_init callable invoke fn args h = (h, Raise "AssertionError").
Proof.
  intros Hmod Hmeth. unfold lazy_init, lazy_init_module.
  destruct (isinstance_Module h fn) eqn:Hinst.
  - destruct fn; try done.
    destruct (callable (VRef o)) eqn:Hc; [|done].
    exfalso. apply Hmod. by exists o.
  - destruct fn; try done.
    destruct (isinstance_Module h (VRef self)) eqn:Hself; [|done].
    exfalso. apply Hmeth. by eexists _, _.
Qed.

(** X6: the wrapped call runs in a store in which every object the module
    owns carries the initializing flag. *)
Theorem lazy_init_call_sees_flag fn args h module o n :
  lazy_init_module callable h fn = Ok module →
  reachable h module o → h !! o = Some n → is_Object n = true →
  ∃ h1,
    flag_of h1 o = Some true ∧
    lazy_init callable invoke fn args h =
      ((_set_initializing (invoke fn args h1).1 module false),
       (invoke fn args h1).2 ≫= λ _, Ok fn).
Proof.
  intros Hm Hr Ho Hobj. exists (_set_initializing h module true).
  split; [by eapply set_initializing_flag|].
  by rewrite (lazy_init_unfold _ _ _ _ _ _ Hm).
Qed.

(** X7: round trip: on a store whose owned objects are not initializing,
    a [lazy_init] whose call leaves the store alone gives the store back
    exactly as it was. *)
Theorem lazy_init_restores_store fn args h module r :
  lazy_init_module callable h fn = Ok module →
  (∀ o n, reachable h module o → h !! o = Some n → is_Object n = true →
          initializing n = false) →
  invoke fn args (_set_initializing h module true) =
    (_set_initializing h module true, r) →
  (lazy_init callable invoke fn args h).1 = h.
Proof.
  intros Hm Hclean Hcall. rewrite (lazy_init_unfold _ _ _ _ _ _ Hm).
  rewrite Hcall. simpl.
  rewrite <-(set_initializing_clean h module Hclean) at 2.
  apply map_eq. intros y.
  rewrite (set_initializing_lookup (_set_initializing h module true)).
  rewrite iter_graph_set_initializing, !set_initializing_lookup.
  case_decide; [|done].
  destruct (h !! y) as [n|]; simpl; [|done]. by rewrite set_node_twice.
Qed.

End lazy_init_more.

Lemma stray_not_owned : ¬ reachable MoreExamples.diamond_and_stray 0 4.
Proof.
  intros Hr. apply iter_graph_reachable in Hr.
  assert (iter_graph MoreExamples.diamond_and_stray 0 = [0; 1; 3; 2]) as Heq
    by (vm_compute; reflexivity).
  rewrite Heq in Hr.
  repeat (apply elem_of_cons in Hr as [Hr|Hr]; [discriminate|]).
  by apply elem_of_nil in Hr.
Qed.

Lemma diamond_clean o n :
  Examples.diamond !! o = Some n → initializing n = false.
Proof.
  assert (map_Forall (λ _ n, initializing n = false) Examples.diamond) as Hall.
  { apply (bool_decide_unpack _). vm_compute. reflexivity. }
  apply Hall.
Qed.

Lemma set_initializing_unreachable_untouched_witness :
  ¬ reachable MoreExamples.diamond_and_stray 0 4 ∧
  _set_initializing MoreExamples.diamond_and_stray 0 false !! 4
    = Some (mkNode KObject true [("back", 0)]).
Proof.
  split; [exact stray_not_owned|].
  etrans;
    [apply (set_initializing_unreachable_untouched
              MoreExamples.diamond_and_stray 0 false 4 stray_not_owned)|].
  reflexivity.
Defined.

Lemma set_initializing_keeps_structure_witness :
  Examples.diamond !! 1 = Some (mkNode KModule false [("shared", 3)]) ∧
  ∃ n', _set_initializing Examples.diamond 0 true !! 1 = Some n' ∧
        kind n' = KModule ∧ node_dict n' = [("shared", 3)] ∧
        (is_Object (mkNode KModule false [("shared", 3)]) = false →
         n' = mkNode KModule false [("shared", 3)]) ∧
        dom (_set_initializing Examples.diamond 0 true) = dom Examples.diamond.
Proof.
  split; [reflexivity|].
  apply (set_initializing_keeps_structure Examples.diamond 0 true 1
           (mkNode KModule false [("shared", 3)])).
  reflexivity.
Defined.

Lemma lazy_init_propagates_exception_witness :
  let h1 := _set_initializing Examples.diamond 0 true in
  lazy_init_module Examples.always Examples.diamond (VRef 0) = Ok 0 ∧
  Examples.raises (VRef 0) Examples.no_args h1 = (h1, Raise "ValueError") ∧
  lazy_init Examples.always Examples.raises (VRef 0) Examples.no_args
    Examples.diamond = (_set_initializing h1 0 false, Raise "ValueError").
Proof.
  split; [reflexivity|]. split; [reflexivity|].
  apply (lazy_init_propagates_exception Examples.always Examples.raises
           (VRef 0) Examples.no_args Examples.diamond 0); reflexivity.
Defined.

Lemma lazy_init_rejects_other_values_witness :
  lazy_init Examples.always Examples.returns7 (VStr "encode")
    Examples.no_args Examples.diamond
  = (Examples.diamond, Raise "AssertionError").
Proof.
  apply (lazy_init_rejects_other_values Examples.always Examples.returns7
           (VStr "encode") Examples.no_args Examples.diamond).
  - intros (o & Hfn & _). discriminate.
  - intros (o & name & Hfn & _). discriminate.
Defined.

Lemma lazy_init_call_sees_flag_witness :
  lazy_init_module Examples.always Examples.diamond (VMethod 1 "encode") = Ok 1 ∧
  reachable Examples.diamond 1 3 ∧
  ∃ h1,
    flag_of h1 3 = Some true ∧
    lazy_init Examples.always Examples.returns7 (VMethod 1 "encode")
      Examples.no_args Examples.diamond =
      ((_set_initializing
          (Examples.returns7 (VMethod 1 "encode") Examples.no_args h1).1 1 false),
       (Examples.returns7 (VMethod 1 "encode") Examples.no_args h1).2
         ≫= λ _, Ok (VMethod 1 "encode")).
Proof.
  assert (reachable Examples.diamond 1 3) as Hr.
  { eapply reach_step; [apply reach_root|].
    vm_compute. apply list_elem_of_here. }
  split; [reflexivity|]. split; [exact Hr|].
  apply (lazy_init_call_sees_flag Examples.always Examples.returns7
           (VMethod 1 "encode") Examples.no_args Examples.diamond 1 3
           (mkNode KObject false [])); [reflexivity|exact Hr| |]; reflexivity.
Defined.

Lemma lazy_init_restores_store_witness :
  lazy_init_module Examples.always Examples.diamond (VRef 0) = Ok 0 ∧
  (lazy_init Examples.always MoreExamples.returns_none (VRef 0)
     Examples.no_args Examples.diamond).1 = Examples.diamond.
Proof.
  split; [reflexivity|].
  apply (lazy_init_restores_store Examples.always MoreExamples.returns_none
           (VRef 0) Examples.no_args Examples.diamond 0 (Ok VNone)).
  - reflexivity.
  - intros o n _ Ho _. by apply (diamond_clean o).
  - reflexivity.
Defined.

(** ** The functional handle: failed and repeated [init] *)

Section functional_more.
Import FunctionalWrapper.
Context {NNXModule : Type}.
Variable nnx_split : NNXModule → GraphDef * State.
Variable nnx_merge : GraphDef → list State → Outcome NNXModule.
Variable module_call : NNXModule → Args → NNXModule * Outcome Val.

(** X8: an [init] that fails, because the constructor raises or the
    keyword is repeated, retains nothing: the handle is still the fresh
    one and [apply] still fails its assert. *)
Theorem functional_failed_init_then_apply
    cls args kwargs rngs (handle' : Functional (NNXModule := NNXModule))
    e states :
  init nnx_split (functional cls args kwargs) rngs = (handle', Raise e) →
  handle' = functional cls args kwargs ∧
  apply nnx_merge module_call handle' states = Raise "AssertionError".
Proof.
  intros Hinit.
  apply init_failure_keeps_handle in Hinit as ->.
  split; [done|]. by apply apply_without_graphdef.
Qed.

(** A handle built with an [rngs] keyword of its own cannot be given
    a bundle at [init]: the keyword would be passed twice, which is a
    [TypeError] whatever the constructor is, and the handle is left as it
    was. *)
Lemma functional_init_repeated_keyword
    (handle : Functional (NNXModule := NNXModule)) r :
  is_Some (kwargs handle !! "rngs") →
  init nnx_split handle (Some r) = (handle, Raise "TypeError").
Proof. intros [v Hv]. unfold init. by rewrite Hv. Qed.

(** X9: [init] can be repeated: it does not look at the graph
    definition retained by an earlier [init], and a later success
    replaces it; the constructor and its arguments stay on the handle. *)
Theorem functional_init_again
    (handle : Functional (NNXModule := NNXModule)) rngs1 rngs2
    handle1 st1 handle2 st2 :
  init nnx_split handle rngs1 = (handle1, Ok st1) →
  init nnx_split handle rngs2 = (handle2, Ok st2) →
  init nnx_split handle1 rngs2 = (handle2, Ok st2) ∧
  module_type handle2 = module_type handle ∧
  args handle2 = args handle ∧
  kwargs handle2 = kwargs handle.
Proof.
  unfold init. intros H1 H2.
  assert (module_type handle1 = module_type handle ∧
          args handle1 = args handle ∧ kwargs handle1 = kwargs handle)
    as (Hm & Ha & Hk).
  { destruct (kwargs handle !! "rngs"), rngs1;
      repeat (match type of H1 with
              | context [match ?x with _ => _ end] => destruct x
              end); by simplify_eq. }
  rewrite Hm, Ha, Hk.
  destruct (kwargs handle !! "rngs"), rngs2;
    repeat (match type of H2 with
            | context [match ?x with _ => _ end] => destruct x eqn:?
            end); by simplify_eq.
Qed.

End functional_more.

Lemma functional_failed_init_then_apply_witness :
  let cls : list Val → gmap string Val → Outcome (gmap string Val) :=
    λ _ _, Raise "ValueError" in
  let run := FunctionalWrapper.init FunctionalExamples.split
               (FunctionalWrapper.functional cls [] ∅) None in
  run.2 = Raise "ValueError" ∧
  run.1 = FunctionalWrapper.functional cls [] ∅ ∧
  FunctionalWrapper.apply FunctionalExamples.merge FunctionalExamples.call
    run.1 [FunctionalExamples.kernel] = Raise "AssertionError".
Proof.
  intros cls run. split; [reflexivity|].
  apply (functional_failed_init_then_apply FunctionalExamples.split
           FunctionalExamples.merge FunctionalExamples.call
           cls [] ∅ None run.1 "ValueError" [FunctionalExamples.kernel]).
  reflexivity.
Defined.

Lemma functional_init_repeated_keyword_witness :
  let handle :=
    FunctionalWrapper.functional FunctionalExamples.Linear []
      {[ "rngs" := VRngs ∅ ]} in
  FunctionalWrapper.init FunctionalExamples.split handle
    (Some {[ "params" := mkStream 1%Z 0 ]})
  = (handle, Raise "TypeError").
Proof.
  intros handle.
  apply (functional_init_repeated_keyword FunctionalExamples.split handle).
  by eexists.
Defined.

Lemma functional_init_again_witness :
  let handle := FunctionalWrapper.functional FunctionalExamples.Linear [VInt 2] ∅ in
  let run1 := FunctionalWrapper.init FunctionalExamples.split handle None in
  let run2 := FunctionalWrapper.init FunctionalExamples.split handle
                (Some {[ "params" := mkStream 1%Z 0 ]}) in
  run1.2 = Ok FunctionalExamples.kernel ∧
  run2.2 = Ok FunctionalExamples.kernel ∧
  FunctionalWrapper.init FunctionalExamples.split run1.1
    (Some {[ "params" := mkStream 1%Z 0 ]}) = run2 ∧
  FunctionalWrapper.kwargs run2.1 = ∅.
Proof.
  intros handle run1 run2. split; [reflexivity|]. split; [reflexivity|].
  destruct (functional_init_again FunctionalExamples.split handle None
              (Some {[ "params" := mkStream 1%Z 0 ]})
              run1.1 FunctionalExamples.kernel
              run2.1 FunctionalExamples.kernel)
    as (Hagain & _ & _ & Hk); [reflexivity|reflexivity|].
  split; [exact Hagain|exact Hk].
Defined.

(** ** [ToNNX]: ingestion, read-back and what a call leaves alone *)

Section tonnx_more.
Import ToNNXWrapper.
Variable variable_type : string → Outcome VariableType.
Variable fold_in : Key → nat → Key.

Local Abbreviation call := (__call__ variable_type fold_in).




Lemma collect_variables_error self e :
  collect_variables self = Raise e → e = "AttributeError".
Proof.
  unfold collect_variables.
  induction (elements (linen_collections self)) as [|col l IH]; simpl;
    [done|].
  destruct (foldr _ _ l) as [vs|e'] eqn:Hfold; simpl.
  - destruct (attrs self !! col) as [t|]; simpl; [|congruence].
    destruct (tree_mapM value_of t) as [x|e'] eqn:Hval; simpl; [done|].
    intros [= <-]. by eapply tree_values_error.
  - intros [= <-]. by apply IH.
Qed.

Lemma collect_variables_missing self col :
  col ∈ linen_collections self → attrs self !! col = None →
  ∃ e, collect_variables self = Raise e.
Proof.
  intros Hcol Hmiss. unfold collect_variables.
  apply elem_of_elements in Hcol.
  induction (elements (linen_collections self)) as [|col' l IH]; simpl.
  - by apply elem_of_nil in Hcol.
  - apply elem_of_cons in Hcol as [->|Hcol].
    + destruct (foldr _ _ l) as [vs|e']; simpl; [|by eexists].
      rewrite Hmiss. by eexists.
    + destruct (IH Hcol) as [e He]. rewrite He. by eexists.
Qed.

(** X10: a wrapper that was never initialised is in the apply branch:
    calling it asks the wrapped module to [apply] with an empty variable
    dict, it does not initialise anything. *)
Theorem call_before_lazy_init lm stored args rngs method :
  calls (call (__init__ lm stored) args rngs method) =
    [Apply ∅ args
       (apply_rngs fold_in (effective_rngs (__init__ lm stored) rngs))
       method].
Proof.
  apply call_apply_log; [done|].
  unfold collect_variables. simpl. by rewrite elements_empty.
Qed.



(** X13: a call in the apply branch without a [mutable] request (absent,
    [False] or [0]) returns whatever the wrapped [apply] returned or
    raised, unchanged, and leaves the attributes, the recorded
    collections and the flag of the wrapper as they were. *)
Theorem plain_call_leaves_wrapper self args rngs method variables :
  _object__state_initializing self = false →
  py_eq_False (default (VBool false) (kw args !! "mutable")) = true →
  collect_variables self = Ok variables →
  let r := call self args rngs method in
  result r = linen_apply (module self) variables args
               (apply_rngs fold_in (effective_rngs self rngs)) method ∧
  attrs (self' r) = attrs self ∧
  linen_collections (self' r) = linen_collections self ∧
  _object__state_initializing (self' r) = false.
Proof.
  intros Hi Hmut Hv r. subst r. unfold __call__. rewrite Hi, Hv.
  unfold commit_draws, split_updates. rewrite Hmut. simpl.
  destruct (rngs_truthy rngs);
    destruct (linen_apply _ _ _ _ _) as [out|e]; simpl; by rewrite ?Hi.
Qed.

(** An exception of [init_with_output] leaves the call as it is, and
    nothing has been ingested: the wrapper and the caller's bundle are
    unchanged. *)
Lemma init_call_failure_ingests_nothing self args rngs method e :
  _object__state_initializing self = true →
  init_with_output (module self) (init_rngs (effective_rngs self rngs))
    args method = Raise e →
  let r := call self args rngs method in
  result r = Raise e ∧ self' r = self ∧ rngs' r = rngs.
Proof. intros Hi Hinit r. subst r. unfold __call__. by rewrite Hi, Hinit. Qed.

(** X14: when a recorded collection is no longer an attribute of the
    wrapper, a call in the apply branch raises [AttributeError] before
    the wrapped module is asked anything; no stream is drawn from and the
    wrapper is unchanged. *)
Theorem call_with_missing_collection self args rngs method col :
  _object__state_initializing self = false →
  col ∈ linen_collections self → attrs self !! col = None →
  call self args rngs method =
    mkCallResult self rngs [] (Raise "AttributeError").
Proof.
  intros Hi Hcol Hmiss.
  destruct (collect_variables_missing self col Hcol Hmiss) as [e He].
  pose proof (collect_variables_error self e He) as ->.
  unfold __call__. by rewrite Hi, He.
Qed.

(** X15: whenever the bundle in effect has a "default" or a "params"
    stream, the rngs handed to [init_with_output] have a "params" key; the
    renaming neither adds nor loses a stream. *)
Theorem init_rngs_has_params (m : gmap string RngStream) :
  is_Some (m !! "default") ∨ is_Some (m !! "params") →
  is_Some (init_rngs (Some m) !! "params") ∧
  size (init_rngs (Some m)) = size m.
Proof.
  intros Hm. unfold init_rngs.
  assert (rngs_truthy (Some m) = true) as ->.
  { destruct Hm as [[s Hs]|[s Hs]]; by eapply bundle_truthy. }
  simpl. rewrite !lookup_fmap.
  destruct (m !! "params") as [p|] eqn:Hp; simpl.
  - rewrite lookup_fmap, Hp. split; [by eexists|]. by rewrite map_size_fmap.
  - destruct Hm as [[s Hs]|[s Hs]]; [|done]. rewrite Hs. simpl.
    rewrite lookup_insert_eq. split; [by eexists|].
    rewrite map_size_insert_None by
      (by rewrite lookup_delete_ne, lookup_fmap, Hp).
    rewrite map_size_delete_Some by (rewrite lookup_fmap, Hs; by eexists).
    rewrite map_size_fmap.
    assert (size m ≠ 0); [|lia].
    intros Hz. apply map_size_empty_inv in Hz. subst.
    by rewrite lookup_empty in Hs.
Qed.

End tonnx_more.




Lemma plain_call_leaves_wrapper_witness :
  let r := ToNNXWrapper.__call__ ToNNXExamples.variable_type
             ToNNXExamples.fold_in ToNNXExamples.ready
             ToNNXExamples.x None VNone in
  ToNNXWrapper.result r = Ok (VInt 1) ∧
  ToNNXWrapper.attrs (ToNNXWrapper.self' r)
    = ToNNXWrapper.attrs ToNNXExamples.ready ∧
  ToNNXWrapper.linen_collections (ToNNXWrapper.self' r)
    = ToNNXWrapper.linen_collections ToNNXExamples.ready ∧
  ToNNXWrapper._object__state_initializing (ToNNXWrapper.self' r) = false.
Proof.
  apply (plain_call_leaves_wrapper
           ToNNXExamples.variable_type ToNNXExamples.fold_in
           ToNNXExamples.ready ToNNXExamples.x None VNone
           MoreExamples.bn_variables).
  - reflexivity.
  - reflexivity.
  - vm_compute. reflexivity.
Defined.

Lemma init_call_failure_ingests_nothing_witness :
  let r := ToNNXWrapper.__call__ ToNNXExamples.variable_type
             ToNNXExamples.fold_in MoreExamples.bn_without_rngs
             ToNNXExamples.x None VNone in
  ToNNXWrapper.result r = Raise "KeyError" ∧
  ToNNXWrapper.self' r = MoreExamples.bn_without_rngs ∧
  ToNNXWrapper.rngs' r = None.
Proof.
  apply (init_call_failure_ingests_nothing
           ToNNXExamples.variable_type ToNNXExamples.fold_in
           MoreExamples.bn_without_rngs ToNNXExamples.x None VNone "KeyError");
    reflexivity.
Defined.

Lemma call_with_missing_collection_witness :
  ToNNXWrapper.__call__ ToNNXExamples.variable_type ToNNXExamples.fold_in
    MoreExamples.bn_broken ToNNXExamples.x None VNone
  = ToNNXWrapper.mkCallResult MoreExamples.bn_broken None []
      (Raise "AttributeError").
Proof.
  apply (call_with_missing_collection
           ToNNXExamples.variable_type ToNNXExamples.fold_in
           MoreExamples.bn_broken ToNNXExamples.x None VNone "params").
  - reflexivity.
  - apply (bool_decide_unpack _). vm_compute. reflexivity.
  - reflexivity.
Defined.

Lemma init_rngs_has_params_witness :
  is_Some (ToNNXWrapper.init_rngs (Some ToNNXExamples.stored_bundle) !! "params") ∧
  size (ToNNXWrapper.init_rngs (Some ToNNXExamples.stored_bundle))
    = size ToNNXExamples.stored_bundle.
Proof.
  apply (init_rngs_has_params ToNNXExamples.stored_bundle).
  left. by eexists.
Defined.

(** ** [ToLinen]: streams, writes and what a call leaves alone *)

Section tolinen_more.
Import ToLinenWrapper.
Context {NNXModule : Type}.
Variable nnx_split : NNXModule → GraphDef * State.
Variable nnx_split_types :
  NNXModule → list VariableType → Outcome (list State).
Variable nnx_merge : Val → State → Outcome NNXModule.
Variable State_merge : list State → State.
Variable reseed : NNXModule → gmap string Key → NNXModule.
Variable module_call : NNXModule → Args → NNXModule * Outcome Val.
Variable sort_variable_types : gset VariableType → list VariableType.
Variable variable_type_name : VariableType → string.
Variable fold_in : Key → nat → Key.

Local Abbreviation update :=
  (update_variables nnx_split nnx_split_types sort_variable_types
     variable_type_name).
Local Abbreviation writes :=
  (captured_writes nnx_split nnx_split_types sort_variable_types
     variable_type_name).
Local Abbreviation call :=
  (__call__ nnx_split nnx_split_types nnx_merge State_merge reseed
     module_call sort_variable_types variable_type_name fold_in).

(** The fold of [linen_rngs_dict] over a list of distinct names. *)
Lemma make_rng_fold sc (l : list string) :
  NoDup l →
  let res := foldr (λ name acc,
                      let '(k, sc') := make_rng fold_in acc.2 name in
                      (<[name := k]> acc.1, sc'))
                   ((∅ : gmap string Key), sc) l in
  (∀ name,
     res.1 !! name =
       if decide (name ∈ l)
       then Some (fold_in (default 0%Z (scope_rngs sc !! name))
                          (default 0 (rng_counters sc !! name)))
       else None) ∧
  (∀ name,
     rng_counters res.2 !! name =
       if decide (name ∈ l)
       then Some (S (default 0 (rng_counters sc !! name)))
       else rng_counters sc !! name) ∧
  variables res.2 = variables sc ∧
  scope_rngs res.2 = scope_rngs sc ∧
  is_initializing res.2 = is_initializing sc ∧
  is_mutable_collection res.2 = is_mutable_collection sc.
Proof.
  induction 1 as [|x l Hx Hnd IH]; cbn [foldr].
  - repeat split; try done; intros name;
      (rewrite decide_False by apply not_elem_of_nil); done.
  - destruct IH as (Hd & Hc & Hv & Hr & Hi & Hm).
    set (acc := foldr _ _ l) in *. simpl.
    rewrite Hv, Hr, Hi, Hm. repeat split; try done; intros name.
    + destruct (decide (name = x)) as [->|Hne].
      * rewrite lookup_insert_eq, decide_True by left.
        rewrite Hc, decide_False by done. done.
      * rewrite lookup_insert_ne, Hd by done.
        destruct (decide (name ∈ l)).
        -- rewrite decide_True; [done|by right].
        -- rewrite decide_False; [done|].
           rewrite elem_of_cons. by intros [?|?].
    + destruct (decide (name = x)) as [->|Hne].
      * rewrite lookup_insert_eq, decide_True by left.
        rewrite Hc, decide_False by done. done.
      * rewrite lookup_insert_ne, Hc by done.
        destruct (decide (name ∈ l)).
        -- rewrite decide_True; [done|by right].
        -- rewrite decide_False; [done|].
           rewrite elem_of_cons. by intros [?|?].
Qed.

(** X16: [linen_rngs_dict] returns one key for every active stream of the
    enclosing context and for nothing else, each derived from that
    stream, whose counter advances by one; the stored variables and the
    other streams' counters are not touched. *)
Theorem linen_rngs_dict_one_key_per_stream sc d sc' name :
  linen_rngs_dict fold_in (Some sc) = Ok (d, sc') →
  d !! name =
    match scope_rngs sc !! name with
    | Some k => Some (fold_in k (default 0 (rng_counters sc !! name)))
    | None => None
    end ∧
  rng_counters sc' !! name =
    match scope_rngs sc !! name with
    | Some _ => Some (S (default 0 (rng_counters sc !! name)))
    | None => rng_counters sc !! name
    end ∧
  dom d = dom (scope_rngs sc) ∧
  variables sc' = variables sc.
Proof.
  unfold linen_rngs_dict. intros Hres.
  apply (f_equal (λ o, match o with Ok r => r | Raise _ => (d, sc') end))
    in Hres. cbv beta iota in Hres.
  destruct (make_rng_fold sc (elements (dom (scope_rngs sc))))
    as (Hd & Hc & Hv & _); [apply NoDup_elements|].
  rewrite Hres in Hd, Hc, Hv. cbn [fst snd] in *.
  assert (∀ n, n ∈ elements (dom (scope_rngs sc)) ↔ is_Some (scope_rngs sc !! n))
    as Hin by (intros n; by rewrite elem_of_elements, elem_of_dom).
  split; [|split; [|split; [|done]]].
  - rewrite Hd. destruct (scope_rngs sc !! name) as [k|] eqn:Hk; simpl.
    + rewrite decide_True; [done|]. apply Hin. by eexists.
    + rewrite decide_False; [done|].
      intros Hn. apply Hin in Hn as [k' Hk'].
      discriminate (eq_trans (eq_sym Hk) Hk').
  - rewrite Hc. destruct (scope_rngs sc !! name) as [k|] eqn:Hk.
    + rewrite decide_True; [done|]. apply Hin. by eexists.
    + rewrite decide_False; [done|].
      intros Hn. apply Hin in Hn as [k' Hk'].
      discriminate (eq_trans (eq_sym Hk) Hk').
  - apply set_eq. intros n. rewrite !elem_of_dom, Hd.
    case_decide as Hn.
    + apply Hin in Hn. split; [done|by eexists].
    + split; [by intros [? ?]|]. intros Hs. exfalso. apply Hn. by apply Hin.
Qed.

Lemma linen_rngs_dict_frame sc d sc' :
  linen_rngs_dict fold_in (Some sc) = Ok (d, sc') →
  variables sc' = variables sc ∧
  is_initializing sc' = is_initializing sc ∧
  is_mutable_collection sc' = is_mutable_collection sc.
Proof.
  unfold linen_rngs_dict. intros Hres.
  apply (f_equal (λ o, match o with Ok r => r | Raise _ => (d, sc') end))
    in Hres. cbv beta iota in Hres.
  destruct (make_rng_fold sc (elements (dom (scope_rngs sc))))
    as (_ & _ & Hv & _ & Hi & Hm); [apply NoDup_elements|].
  rewrite Hres in Hv, Hi, Hm. done.
Qed.

(** The writes of a run: the graph definition first, if "nnx" is
    writable, then entries of writable collections named after variable
    types. *)
Lemma captured_writes_shape module sc :
  ∃ rest,
    writes module sc =
      (if is_mutable_collection sc "nnx"
       then [("nnx", "graphdef", VGraphDef (nnx_split module).1)] else [])
      ++ rest ∧
    ∀ w, w ∈ rest →
      is_mutable_collection sc w.1.1 = true ∧
      ∃ typ, w.1.1 = variable_type_name typ.
Proof.
  unfold captured_writes. destruct (nnx_split module) as [gdef state].
  cbn [fst]. eexists. split; [done|]. intros w Hw.
  destruct (state_types _) as [ts|e]; [|by apply elem_of_nil in Hw].
  destruct (nnx_split_types _ _) as [sbt|e]; [|by apply elem_of_nil in Hw].
  apply list_elem_of_bind in Hw as ([typ st] & Hw & _).
  unfold type_writes in Hw.
  destruct (is_mutable_collection sc (variable_type_name typ)) eqn:Hmut;
    [|by apply elem_of_nil in Hw].
  apply list_elem_of_fmap in Hw as (kv & -> & _). simpl.
  split; [done|by exists typ].
Qed.

Lemma foldl_put_untouched col (ws : list (string * string * Val)) :
  ∀ vs : gmap string (gmap string Val),
    (∀ w, w ∈ ws → w.1.1 ≠ col) → foldl put vs ws !! col = vs !! col.
Proof.
  induction ws as [|w ws IH]; intros vs Hws; simpl; [done|].
  rewrite IH by (intros w' Hw'; apply Hws; by right).
  destruct w as [[c k] v]. unfold put.
  apply lookup_insert_ne. apply (Hws (c, k, v)). left.
Qed.

Lemma last_write_cons w (ws : list (string * string * Val)) col name :
  last_write (w :: ws) col name =
    match last_write ws col name with
    | Some v => Some v
    | None => if decide (w.1 = (col, name)) then Some w.2 else None
    end.
Proof. unfold last_write at 1. cbn [foldl]. apply last_write_from. Qed.

Lemma last_write_none (ws : list (string * string * Val)) col name :
  (∀ w, w ∈ ws → w.1 ≠ (col, name)) → last_write ws col name = None.
Proof.
  induction ws as [|w ws IH]; intros Hws; [done|].
  rewrite last_write_cons, IH by (intros w' Hw'; apply Hws; by right).
  rewrite decide_False; [done|]. apply Hws. left.
Qed.

Lemma last_write_graphdef module sc :
  is_mutable_collection sc "nnx" = true →
  (∀ typ, variable_type_name typ ≠ "nnx") →
  last_write (writes module sc) "nnx" "graphdef"
    = Some (VGraphDef (nnx_split module).1).
Proof.
  intros Hmut Hname.
  destruct (captured_writes_shape module sc) as (rest & -> & Hrest).
  rewrite Hmut. simpl. rewrite last_write_cons, last_write_none.
  - by rewrite decide_True.
  - intros w Hw Heq. destruct (Hrest w Hw) as (_ & typ & Htyp).
    apply (Hname typ). rewrite <-Htyp. by rewrite Heq.
Qed.

(** X17: [update_variables] never writes into a collection that is not
    writable in the current call: such a collection is left exactly as it
    was, whether the run returns or raises. *)
Theorem update_variables_skips_read_only module sc col :
  is_mutable_collection sc col = false →
  variables
    (update_variables nnx_split nnx_split_types sort_variable_types
       variable_type_name module sc).1 !! col
  = variables sc !! col.
Proof.
  intros Hro. rewrite update_variables_writes. simpl.
  apply foldl_put_untouched. intros w Hw Heq.
  destruct (captured_writes_shape module sc) as (rest & Hshape & Hrest).
  rewrite Hshape in Hw. apply elem_of_app in Hw as [Hw|Hw].
  - destruct (is_mutable_collection sc "nnx") eqn:Hnnx;
      [|by apply elem_of_nil in Hw].
    apply list_elem_of_singleton in Hw as ->. simpl in Heq. congruence.
  - destruct (Hrest w Hw) as [Hmut _]. congruence.
Qed.

(** X18: when "nnx" is writable and no variable type is named "nnx", a
    run of [update_variables] leaves the module's graph definition
    stored under "nnx"/"graphdef", also when inspecting the state raises
    afterwards. *)
Theorem update_variables_stores_graphdef module sc :
  is_mutable_collection sc "nnx" = true →
  (∀ typ, variable_type_name typ ≠ "nnx") →
  stored
    (variables
       (update_variables nnx_split nnx_split_types sort_variable_types
          variable_type_name module sc).1) "nnx" "graphdef"
    = Some (VGraphDef (nnx_split module).1).
Proof.
  intros Hmut Hname. rewrite update_variables_writes. simpl.
  rewrite foldl_put_stored. by rewrite last_write_graphdef.
Qed.

(** X19: [update_variables] only adds and overwrites: an entry that was
    stored stays stored (with its old value unless the run wrote that
    name), so variables the module no longer has are not removed. *)
Theorem update_variables_never_removes module sc col name v :
  stored (variables sc) col name = Some v →
  stored
    (variables
       (update_variables nnx_split nnx_split_types sort_variable_types
          variable_type_name module sc).1) col name =
    match last_write
            (captured_writes nnx_split nnx_split_types sort_variable_types
               variable_type_name module sc) col name with
    | Some v' => Some v'
    | None => Some v
    end ∧
  is_Some
    (stored
       (variables
          (update_variables nnx_split nnx_split_types sort_variable_types
             variable_type_name module sc).1) col name).
Proof.
  intros Hv. rewrite update_variables_writes. simpl.
  rewrite foldl_put_stored, Hv.
  split; [done|]. destruct (last_write _ _ _); by eexists.
Qed.

Lemma apply_path_merges (self : ToLinen) call_args sc gdef :
  is_initializing sc = false →
  stored (variables sc) "nnx" "graphdef" = Some gdef →
  merges (call self call_args sc) = [(gdef, nnx_state State_merge sc)].
Proof.
  intros Hi Hg. unfold __call__, get_variable. rewrite Hi.
  unfold stored in Hg. rewrite Hg.
  destruct (nnx_merge _ _) as [module|e]; [|done].
  destruct (linen_rngs_dict _ _) as [[d sc1]|e]; [|done].
  destruct (module_call _ _) as [module2 [out|e]]; [|done].
  by destruct (update_variables _ _ _ _ _ _) as [sc2 r].
Qed.

(** What the init path leaves behind when it returns. *)
Lemma init_path_returns (self : ToLinen) call_args sc v :
  is_initializing sc = true →
  result (call self call_args sc) = Ok v →
  ∃ module sc1,
    scope' (call self call_args sc) = (update module sc1).1 ∧
    variables sc1 = variables sc ∧
    is_mutable_collection sc1 = is_mutable_collection sc.
Proof.
  intros Hi. unfold __call__. rewrite Hi.
  destruct (skip_rng self).
  - simpl. destruct (nnx_class self _ _) as [module|e]; [|done].
    destruct (update_variables _ _ _ _ module sc) as [sc2 r] eqn:Hup.
    destruct r as [[]|e]; [|done]. intros _.
    exists module, sc. by rewrite Hup.
  - destruct (linen_rngs_dict fold_in (Some sc)) as [[d sc1]|e] eqn:Hd;
      [|done]. simpl.
    destruct (linen_rngs_dict_frame sc d sc1 Hd) as (Hv & _ & Hm).
    destruct (nnx_class self _ _) as [module|e]; [|done].
    destruct (update_variables _ _ _ _ module sc1) as [sc2 r] eqn:Hup.
    destruct r as [[]|e]; [|done]. intros _.
    exists module, sc1. by rewrite Hup.
Qed.

(** X20: init and apply compose: when a call on the init path returns,
    with "nnx" writable and no variable type named "nnx", a later call on
    the apply path over the variables it left finds a graph definition
    and hands it to [nnx.merge]; it does not fail for a missing one. *)
Theorem init_then_apply_finds_graphdef
    (self : ToLinen) call_args sc v sc2 call_args2 :
  is_initializing sc = true →
  is_mutable_collection sc "nnx" = true →
  (∀ typ, variable_type_name typ ≠ "nnx") →
  result (call self call_args sc) = Ok v →
  is_initializing sc2 = false →
  variables sc2 = variables (scope' (call self call_args sc)) →
  ∃ g, merges (call self call_args2 sc2)
         = [(VGraphDef g, nnx_state State_merge sc2)].
Proof.
  intros Hi Hmut Hname Hres Hi2 Hvars.
  destruct (init_path_returns self call_args sc v Hi Hres)
    as (module & sc1 & Hscope & Hv1 & Hm1).
  exists (nnx_split module).1. apply apply_path_merges; [done|].
  rewrite Hvars, Hscope, update_variables_writes. simpl.
  rewrite foldl_put_stored, last_write_graphdef; [done| |done].
  by rewrite Hm1.
Qed.

Lemma update_read_only_scope module sc :
  (∀ col, is_mutable_collection sc col = false) →
  variables (update module sc).1 = variables sc.
Proof.
  intros Hro. rewrite update_variables_writes. simpl.
  destruct (captured_writes_shape module sc) as (rest & -> & Hrest).
  rewrite Hro. simpl. destruct rest as [|w rest]; [done|].
  destruct (Hrest w) as [Hmut _]; [left|]. by rewrite Hro in Hmut.
Qed.

(** X21: a call in a context where no collection is writable leaves the
    stored variables exactly as they were, on the init path and on the
    apply path, whatever the module does. *)
Theorem call_read_only_keeps_variables (self : ToLinen) call_args sc :
  (∀ col, is_mutable_collection sc col = false) →
  variables (scope' (call self call_args sc)) = variables sc.
Proof.
  intros Hro.
  assert (∀ module sc1,
            variables sc1 = variables sc →
            is_mutable_collection sc1 = is_mutable_collection sc →
            variables (update module sc1).1 = variables sc) as Hup.
  { intros module sc1 Hv Hm. rewrite <-Hv.
    apply update_read_only_scope. intros col. by rewrite Hm. }
  unfold __call__. destruct (is_initializing sc).
  - destruct (skip_rng self).
    + cbn [mbind Outcome_bind]. 
      destruct (nnx_class self (args self) (kwargs self)) as [module|e];
        [|done].
      specialize (Hup module sc eq_refl eq_refl).
      destruct (update_variables _ _ _ _ module sc) as [sc2 r].
      by destruct r.
    + destruct (linen_rngs_dict fold_in (Some sc)) as [[d sc1]|e] eqn:Hd;
        [|done]. cbn [mbind Outcome_bind].
      destruct (linen_rngs_dict_frame sc d sc1 Hd) as (Hv & _ & Hm).
      destruct (nnx_class self (args self) _) as [module|e]; [|done].
      specialize (Hup module sc1 Hv Hm).
      destruct (update_variables _ _ _ _ module sc1) as [sc2 r].
      by destruct r.
  - destruct (get_variable sc "nnx" "graphdef") as [gdef|e]; [|done].
    destruct (nnx_merge _ _) as [module|e]; [|done].
    destruct (linen_rngs_dict fold_in (Some sc)) as [[d sc1]|e] eqn:Hd;
      [|done].
    destruct (linen_rngs_dict_frame sc d sc1 Hd) as (Hv & _ & Hm).
    destruct (module_call _ _) as [module2 [out|e]]; [|done].
    specialize (Hup module2 sc1 Hv Hm).
    by destruct (update_variables _ _ _ _ module2 sc1) as [sc3 r].
Qed.

End tolinen_more.

Section tolinen_snapshot.
Import ToLinenWrapper.
Context {NNXModule : Type}.
Variable nnx_split : NNXModule → GraphDef * State.
Variable nnx_split_types :
  NNXModule → list VariableType → Outcome (list State).
Variable nnx_merge : Val → State → Outcome NNXModule.
Variable State_merge : list State → State.
Variable reseed : NNXModule → gmap string Key → NNXModule.
Variable sort_variable_types : gset VariableType → list VariableType.
Variable variable_type_name : VariableType → string.
Variable fold_in : Key → nat → Key.

(** X22: on the init path the variables are captured before the module
    is called: what the context holds afterwards is the same whatever the
    module's call does to the module, and nothing is merged. *)
Theorem init_snapshot_precedes_call
    (module_call1 module_call2 : NNXModule → Args → NNXModule * Outcome Val)
    (self : ToLinen) call_args sc :
  is_initializing sc = true →
  scope' (__call__ nnx_split nnx_split_types nnx_merge State_merge reseed
            module_call1 sort_variable_types variable_type_name fold_in
            self call_args sc)
  = scope' (__call__ nnx_split nnx_split_types nnx_merge State_merge reseed
              module_call2 sort_variable_types variable_type_name fold_in
              self call_args sc) ∧
  merges (__call__ nnx_split nnx_split_types nnx_merge State_merge reseed
            module_call1 sort_variable_types variable_type_name fold_in
            self call_args sc) = [].
Proof.
  intros Hi. unfold __call__. rewrite Hi.
  destruct (if skip_rng self then _ else _) as [[module_kwargs sc1]|e];
    [|done].
  destruct (nnx_class self _ _) as [module|e]; [|done].
  destruct (update_variables _ _ _ _ module sc1) as [sc2 r].
  by destruct r.
Qed.

End tolinen_snapshot.

Lemma linen_rngs_dict_one_key_per_stream_witness :
  ∃ d sc',
    ToLinenWrapper.linen_rngs_dict ToLinenExamples.fold_in
      (Some ToLinenExamples.init_scope) = Ok (d, sc') ∧
    d !! "params" = Some 100%Z ∧
    ToLinenWrapper.rng_counters sc' !! "params" = Some 1 ∧
    dom d = dom (ToLinenWrapper.scope_rngs ToLinenExamples.init_scope) ∧
    ToLinenWrapper.variables sc' = ∅.
Proof.
  eexists _, _. split; [vm_compute; reflexivity|].
  eapply (linen_rngs_dict_one_key_per_stream ToLinenExamples.fold_in
            ToLinenExamples.init_scope _ _ "params").
  vm_compute. reflexivity.
Defined.

Lemma update_variables_skips_read_only_witness :
  let update := ToLinenWrapper.update_variables ToLinenExamples.split
                  ToLinenExamples.split_types
                  ToLinenExamples.sort_variable_types
                  ToLinenExamples.variable_type_name in
  ToLinenWrapper.is_mutable_collection ToLinenExamples.apply_scope "params"
    = false ∧
  ToLinenWrapper.variables
    (update MoreExamples.rescaled ToLinenExamples.apply_scope).1 !! "params"
  = Some {[ "scale" := VVariableState "Param" (VInt 1) ]}.
Proof.
  intros update. split; [reflexivity|].
  etrans;
    [apply (update_variables_skips_read_only ToLinenExamples.split
              ToLinenExamples.split_types ToLinenExamples.sort_variable_types
              ToLinenExamples.variable_type_name MoreExamples.rescaled
              ToLinenExamples.apply_scope "params"); reflexivity|].
  vm_compute. reflexivity.
Defined.

Lemma collection_of_not_nnx typ : MoreExamples.collection_of typ ≠ "nnx".
Proof. unfold MoreExamples.collection_of. by case_decide. Qed.

Lemma update_variables_stores_graphdef_witness :
  ToLinenWrapper.stored
    (ToLinenWrapper.variables
       (ToLinenWrapper.update_variables ToLinenExamples.split
          ToLinenExamples.split_types ToLinenExamples.sort_variable_types
          MoreExamples.collection_of MoreExamples.rescaled
          ToLinenExamples.init_scope).1) "nnx" "graphdef"
  = Some (VGraphDef (mkGraphDef 0)).
Proof.
  apply (update_variables_stores_graphdef ToLinenExamples.split
           ToLinenExamples.split_types ToLinenExamples.sort_variable_types
           MoreExamples.collection_of MoreExamples.rescaled
           ToLinenExamples.init_scope).
  - reflexivity.
  - exact collection_of_not_nnx.
Defined.

Lemma update_variables_never_removes_witness :
  let update := ToLinenWrapper.update_variables ToLinenExamples.split
                  ToLinenExamples.split_types
                  ToLinenExamples.sort_variable_types
                  ToLinenExamples.variable_type_name in
  ToLinenWrapper.stored
    (ToLinenWrapper.variables ToLinenExamples.apply_scope) "params" "scale"
    = Some (VVariableState "Param" (VInt 1)) ∧
  is_Some
    (ToLinenWrapper.stored
       (ToLinenWrapper.variables
          (update MoreExamples.without_scale ToLinenExamples.apply_scope).1)
       "params" "scale").
Proof.
  intros update. split; [vm_compute; reflexivity|].
  apply (update_variables_never_removes ToLinenExamples.split
           ToLinenExamples.split_types ToLinenExamples.sort_variable_types
           ToLinenExamples.variable_type_name MoreExamples.without_scale
           ToLinenExamples.apply_scope "params" "scale"
           (VVariableState "Param" (VInt 1))).
  vm_compute. reflexivity.
Defined.

Lemma init_then_apply_finds_graphdef_witness :
  ToLinenWrapper.result (MoreExamples.run_layer ToLinenExamples.init_scope)
    = Ok (VInt 2) ∧
  ∃ g, ToLinenWrapper.merges (MoreExamples.run_layer MoreExamples.frozen_scope)
       = [(VGraphDef g,
           ToLinenWrapper.nnx_state ToLinenExamples.State_merge
             MoreExamples.frozen_scope)].
Proof.
  split; [vm_compute; reflexivity|].
  apply (init_then_apply_finds_graphdef ToLinenExamples.split
           ToLinenExamples.split_types ToLinenExamples.merge
           ToLinenExamples.State_merge ToLinenExamples.reseed
           ToLinenExamples.call ToLinenExamples.sort_variable_types
           MoreExamples.collection_of ToLinenExamples.fold_in
           ToLinenExamples.layer ToLinenExamples.x ToLinenExamples.init_scope
           (VInt 2) MoreExamples.frozen_scope ToLinenExamples.x).
  - reflexivity.
  - reflexivity.
  - exact collection_of_not_nnx.
  - vm_compute. reflexivity.
  - reflexivity.
  - reflexivity.
Defined.

Lemma call_read_only_keeps_variables_witness :
  ToLinenWrapper.result (MoreExamples.run_layer MoreExamples.frozen_scope)
    = Ok (VInt 2) ∧
  ToLinenWrapper.variables
    (ToLinenWrapper.scope' (MoreExamples.run_layer MoreExamples.frozen_scope))
  = ToLinenWrapper.variables MoreExamples.frozen_scope.
Proof.
  split; [vm_compute; reflexivity|].
  apply (call_read_only_keeps_variables ToLinenExamples.split
           ToLinenExamples.split_types ToLinenExamples.merge
           ToLinenExamples.State_merge ToLinenExamples.reseed
           ToLinenExamples.call ToLinenExamples.sort_variable_types
           MoreExamples.collection_of ToLinenExamples.fold_in
           ToLinenExamples.layer ToLinenExamples.x MoreExamples.frozen_scope).
  intros col. reflexivity.
Defined.

Lemma init_snapshot_precedes_call_witness :
  ToLinenWrapper.scope'
    (ToLinenWrapper.__call__ ToLinenExamples.split ToLinenExamples.split_types
       ToLinenExamples.merge ToLinenExamples.State_merge ToLinenExamples.reseed
       ToLinenExamples.call ToLinenExamples.sort_variable_types
       MoreExamples.collection_of ToLinenExamples.fold_in
       ToLinenExamples.layer ToLinenExamples.x ToLinenExamples.init_scope)
  = ToLinenWrapper.scope'
      (ToLinenWrapper.__call__ ToLinenExamples.split ToLinenExamples.split_types
         ToLinenExamples.merge ToLinenExamples.State_merge ToLinenExamples.reseed
         MoreExamples.call_and_reset ToLinenExamples.sort_variable_types
         MoreExamples.collection_of ToLinenExamples.fold_in
         ToLinenExamples.layer ToLinenExamples.x ToLinenExamples.init_scope).
Proof.
  apply (init_snapshot_precedes_call ToLinenExamples.split
           ToLinenExamples.split_types ToLinenExamples.merge
           ToLinenExamples.State_merge ToLinenExamples.reseed
           ToLinenExamples.sort_variable_types
           MoreExamples.collection_of ToLinenExamples.fold_in
           ToLinenExamples.call MoreExamples.call_and_reset
           ToLinenExamples.layer ToLinenExamples.x ToLinenExamples.init_scope).
  reflexivity.
Defined.

(** ** Configuration flags *)

Section configuration_facts.
Import Configurations.

Lemma lower_char_idemp c : lower_char (lower_char c) = lower_char c.
Proof. by destruct c as [[] [] [] [] [] [] [] []]. Qed.

Lemma lower_idemp s : lower (lower s) = lower s.
Proof.
  induction s as [|c s IH]; simpl; [done|].
  by rewrite lower_char_idemp, IH.
Qed.

(** X23: when the variable is not in the environment, [static_bool_env]
    returns the default, be it [True] or [False], and never raises. *)
Theorem static_bool_env_unset (environ : gmap string string) varname d :
  environ !! varname = None →
  static_bool_env environ varname d = Ok d.
Proof.
  intros Hunset. unfold static_bool_env. rewrite Hunset.
  by destruct d.
Qed.

(** X24: when the variable is set, the default plays no part and the
    case of the letters does not matter: the result is the one for the
    lower-cased value, under either default. *)
Theorem static_bool_env_case_insensitive
    (environ : gmap string string) varname s d d' :
  environ !! varname = Some s →
  static_bool_env environ varname d =
  static_bool_env (<[varname := lower s]> environ) varname d'.
Proof.
  intros Hset. unfold static_bool_env.
  by rewrite Hset, lookup_insert_eq, lower_idemp.
Qed.

(** X25: [temp_flip_flag] runs the body with the flag set to the given
    value and puts the old value back afterwards, whether the body
    returned or raised; the body's outcome is passed on and the other
    flags are as the body left them. *)
Theorem temp_flip_flag_restores
    var_name var_value body (config : gmap string bool) old_value other :
  config !! (String.append "flax_" var_name) = Some old_value →
  let name := String.append "flax_" var_name in
  let inside := <[name := var_value]> config in
  let run := temp_flip_flag var_name var_value body config in
  inside !! name = Some var_value ∧
  run.1 !! name = Some old_value ∧
  run.2 = (body inside).2 ∧
  (other ≠ name → run.1 !! other = (body inside).1 !! other).
Proof.
  intros Hold name inside run. subst run inside name.
  unfold temp_flip_flag. cbv zeta. rewrite Hold.
  destruct (body _) as [config' r]. simpl.
  split; [by apply lookup_insert_eq|].
  split; [by apply lookup_insert_eq|]. split; [done|].
  intros Hne. by rewrite lookup_insert_ne.
Qed.

(** X26: round trip: around a body that leaves the configuration alone,
    [temp_flip_flag] gives back the configuration exactly as it was. *)
Theorem temp_flip_flag_round_trip
    var_name var_value body (config : gmap string bool) old_value r :
  config !! (String.append "flax_" var_name) = Some old_value →
  (∀ c, body c = (c, r)) →
  temp_flip_flag var_name var_value body config = (config, r).
Proof.
  intros Hold Hbody. unfold temp_flip_flag. cbv zeta.
  rewrite Hold, Hbody. f_equal. rewrite insert_insert_eq. by apply insert_id.
Qed.

End configuration_facts.

Example static_bool_env_spellings :
  Configurations.static_bool_env {[ "F" := "YES" ]} "F" false = Ok true ∧
  Configurations.static_bool_env {[ "F" := "0" ]} "F" true = Ok false ∧
  Configurations.static_bool_env {[ "F" := "maybe" ]} "F" true
    = Raise "ValueError" ∧
  Configurations.static_bool_env {[ "F" := "" ]} "F" true = Raise "ValueError".
Proof. vm_compute. done. Qed.

Lemma static_bool_env_unset_witness :
  Configurations.static_bool_env ConfigurationExamples.environ
    "FLAX_PROFILE" false = Ok false.
Proof.
  apply (static_bool_env_unset ConfigurationExamples.environ
           "FLAX_PROFILE" false).
  reflexivity.
Defined.

Lemma static_bool_env_case_insensitive_witness :
  Configurations.flax_lazy_rng ConfigurationExamples.environ = Ok false ∧
  Configurations.static_bool_env ConfigurationExamples.environ
    "FLAX_LAZY_RNG" true
  = Configurations.static_bool_env
      (<["FLAX_LAZY_RNG" := "off"]> ConfigurationExamples.environ)
      "FLAX_LAZY_RNG" false.
Proof.
  split; [vm_compute; reflexivity|].
  apply (static_bool_env_case_insensitive ConfigurationExamples.environ
           "FLAX_LAZY_RNG" "Off" true false).
  reflexivity.
Defined.

Lemma temp_flip_flag_restores_witness :
  let run := Configurations.temp_flip_flag "profile" false
               ConfigurationExamples.failing_body
               ConfigurationExamples.config in
  run.1 !! "flax_profile" = Some true ∧
  run.2 = Raise "AssertionError" ∧
  run.1 !! "flax_fix_rng_separator" = Some true.
Proof.
  intros run.
  destruct (temp_flip_flag_restores "profile" false
              ConfigurationExamples.failing_body
              ConfigurationExamples.config true "flax_fix_rng_separator")
    as (_ & Hold & Hres & Hother); [reflexivity|].
  split; [exact Hold|]. split; [exact Hres|].
  etrans; [apply Hother; discriminate|]. vm_compute. reflexivity.
Defined.

Lemma temp_flip_flag_round_trip_witness :
  Configurations.temp_flip_flag "profile" false
    ConfigurationExamples.quiet_body ConfigurationExamples.config
  = (ConfigurationExamples.config, Ok ()).
Proof.
  apply (temp_flip_flag_round_trip "profile" false
           ConfigurationExamples.quiet_body ConfigurationExamples.config
           true (Ok ())).
  - reflexivity.
  - intros c. reflexivity.
Defined.

Example temp_flip_flag_unknown_flag :
  Configurations.temp_flip_flag "no_such_flag" true
    ConfigurationExamples.failing_body ConfigurationExamples.config
  = (ConfigurationExamples.config, Raise "AttributeError").
Proof. vm_compute. reflexivity. Qed.
